(** * tidb-insight-mcp: the tool dispatcher and query engine of [server.py]

    A shallow embedding of [src/server.py].  The Python code talks to a
    database through pymysql and reads the wall clock; both are modelled as an
    oracle ([Driver]) whose answers may depend on everything that happened
    before, and every theorem below is stated for an arbitrary oracle.

    Modelling conventions:
    - Python [str] values are Rocq [string]s; [strip] and [upper] are given
      on the ASCII range (characters above 127 are left untouched);
    - a [dict] of tool arguments is a [gmap string Value]; a row of a
      [DictCursor] is an association list, so column order is kept;
    - a Python [float] (a wall-clock reading, an elapsed time, a size in
      megabytes) is an IEEE 754 binary64 value, with the operations of
      [SpecFloat], which round to nearest, ties to even;
    - exceptions are values of [Exn]; a computation is a function from the
      state of the world to a result and a new state of the world. *)

From Stdlib Require Import ZArith QArith Qround List String Ascii Bool Lia.
From Stdlib Require Import SpecFloat Sorted.
From Stdlib Require Import DecimalString.
From stdpp Require Import base gmap strings.

Import ListNotations.
Local Open Scope Z_scope.
Local Open Scope string_scope.

(** ** Python built-ins used by the server *)

Module Py.

(** [str.isspace] on the ASCII range: TAB, LF, VT, FF, CR, the four
    separators FS GS RS US, and the space. *)
Definition isspace (c : ascii) : bool :=
  let n := N_of_ascii c in
  (((9 <=? n) && (n <=? 13)) || ((28 <=? n) && (n <=? 32)))%N.

Fixpoint lstrip (s : string) : string :=
  match s with
  | EmptyString => EmptyString
  | String c s' => if isspace c then lstrip s' else s
  end.

Fixpoint rstrip (s : string) : string :=
  match s with
  | EmptyString => EmptyString
  | String c s' =>
      match rstrip s' with
      | EmptyString => if isspace c then EmptyString else String c EmptyString
      | r => String c r
      end
  end.

(** [s.strip()] *)
Definition strip (s : string) : string := lstrip (rstrip s).

Definition upper_char (c : ascii) : ascii :=
  let n := N_of_ascii c in
  if ((97 <=? n) && (n <=? 122))%N then ascii_of_N (n - 32) else c.

(** [s.upper()] *)
Fixpoint upper (s : string) : string :=
  match s with
  | EmptyString => EmptyString
  | String c s' => String (upper_char c) (upper s')
  end.

(** [s.startswith(p)] for one prefix *)
Fixpoint startswith1 (s p : string) {struct p} : bool :=
  match p, s with
  | EmptyString, _ => true
  | String _ _, EmptyString => false
  | String a p', String b s' => if Ascii.eqb a b then startswith1 s' p' else false
  end.

(** [s.startswith(ps)] for a tuple of prefixes *)
Definition startswith (s : string) (ps : list string) : bool :=
  existsb (startswith1 s) ps.

(** [str(n)] for an [int] *)
Definition str_int (z : Z) : string := NilZero.string_of_int (Z.to_int z).

(** [str(b)] for a [bool] *)
Definition str_bool (b : bool) : string := if b then "True" else "False".

(** Insert a comma before every group of three digits, counted from the
    right: the grouping of the format specification [,]. *)
Fixpoint group3 (digits : list ascii) (n : nat) : string :=
  match digits with
  | [] => EmptyString
  | d :: ds =>
      let rest := group3 ds (Nat.pred n) in
      if (Nat.eqb (Nat.modulo (Nat.pred n) 3) 0 && negb (Nat.eqb n 1))%bool
      then String d (String "," rest) else String d rest
  end.

(** [f"{z:,}"] for an [int] *)
Definition format_comma (z : Z) : string :=
  let digits := list_ascii_of_string (str_int (Z.abs z)) in
  (if (z <? 0)%Z then "-" else "") ++ group3 digits (List.length digits).

(** Round to the nearest integer, ties to the even one. *)
Definition round_half_even (q : Q) : Z :=
  let f := Qfloor q in
  let r := (q - inject_Z f)%Q in
  match (r ?= 1 # 2)%Q with
  | Lt => f
  | Gt => f + 1
  | Eq => if Z.even f then f else f + 1
  end.

Definition two_digits (n : Z) : string :=
  (if (n <? 10)%Z then "0" else "") ++ str_int n.

(** *** Floats

    A [float] is a binary64 value: precision 53, exponents below 1024. *)
Definition float : Type := spec_float.

Definition prec : Z := 53.
Definition emax : Z := 1024.

(** The nearest float to an [int], as [float(z)] and as the conversion of
    an [int] operand of a float operation give it. *)
Definition float_of_int (z : Z) : float := binary_normalize prec emax z 0 false.

(** [x + y], [x - y], [x * y], [x / y] for a non-zero [y], and [x < y] *)
Definition fadd : float -> float -> float := SFadd prec emax.
Definition fsub : float -> float -> float := SFsub prec emax.
Definition fmul : float -> float -> float := SFmul prec emax.
Definition fdiv : float -> float -> float := SFdiv prec emax.
Definition flt : float -> float -> bool := SFltb.

(** The magnitude [m * 2^e] of a finite float, exactly. *)
Definition magnitude (m : positive) (e : Z) : Q :=
  (inject_Z (Z.pos m) * Qpower (2 # 1) e)%Q.

Definition sign_text (s : bool) : string := if s then "-" else "".

(** [f"{x:.2f}"]: the exact value rounded to hundredths, ties to even; the
    sign is printed even when the rounded magnitude is zero, as Python
    prints [-0.00]. *)
Definition format_2f (x : float) : string :=
  match x with
  | S754_nan => "nan"
  | S754_infinity s => sign_text s ++ "inf"
  | S754_zero s => sign_text s ++ "0.00"
  | S754_finite s m e =>
      let h := round_half_even (magnitude m e * 100)%Q in
      sign_text s ++ str_int (h / 100) ++ "." ++ two_digits (h mod 100)
  end.

(** [repr] of a list of plain strings: [['a', 'b']] *)
Fixpoint join (sep : string) (l : list string) : string :=
  match l with
  | [] => EmptyString
  | [x] => x
  | x :: xs => x ++ sep ++ join sep xs
  end.

Definition repr_str_list (l : list string) : string :=
  "[" ++ join ", " (map (fun s => "'" ++ s ++ "'") l) ++ "]".

(** [sum(l)] for floats: the additions from left to right, starting from
    the [int] 0, each one rounded. *)
Definition sum (l : list float) : float := fold_left fadd l (float_of_int 0).

(** The same sum as CPython computes it from version 3.12 on: the rounding
    errors of the additions are collected in [c] and added at the end. *)
Definition compensate (acc : float * float) (x : float) : float * float :=
  let (s, c) := acc in
  let t := fadd s x in
  if SFleb (SFabs x) (SFabs s)
  then (t, fadd c (fadd (fsub s t) x))
  else (t, fadd c (fadd (fsub x t) s)).

Definition sum_compensated (l : list float) : float :=
  let (s, c) := fold_left compensate l (float_of_int 0, float_of_int 0) in
  match c with
  | S754_finite _ _ _ => fadd s c
  | _ => s
  end.

(** [min(l)] and [max(l)] of a non-empty list: an element replaces the
    one kept so far when it is smaller (larger) by [<] ([>]), so the first
    of equal elements is kept. *)
Definition min_from (x : float) (l : list float) : float :=
  fold_left (fun m y => if flt y m then y else m) l x.

Definition max_from (x : float) (l : list float) : float :=
  fold_left (fun m y => if flt m y then y else m) l x.

End Py.

(** ** Values, exceptions and results *)

(** The values a tool argument can take: the JSON scalars that the tool
    schemas mention, as Python sees them. *)
Inductive Value :=
| VNone
| VBool (b : bool)
| VInt (z : Z)
| VStr (s : string).

(** A column value of a fetched row. *)
Inductive DbValue :=
| DNull
| DInt (z : Z)
| DStr (s : string).

(** A row of a [DictCursor]: column name to value, in column order. *)
Definition Row : Type := list (string * DbValue).

(** The exceptions (subclasses of [Exception]) that the code can meet. *)
Inductive Exn :=
| KeyError (key : string)
| TypeError (msg : string)
| AttributeError (msg : string)
| ValueError (msg : string)
| ZeroDivisionError (msg : string)
| DatabaseError (msg : string).

(** [str(e)]; the [repr] of a key is given for the plain identifiers that
    the code uses as keys. *)
Definition str_exn (e : Exn) : string :=
  match e with
  | KeyError key => "'" ++ key ++ "'"
  | TypeError msg | AttributeError msg | ValueError msg
  | ZeroDivisionError msg | DatabaseError msg => msg
  end.

Inductive Result (A : Type) :=
| Ok (a : A)
| Raise (e : Exn).
Arguments Ok {A} a.
Arguments Raise {A} e.

Definition nl : string := String (ascii_of_nat 10) EmptyString.

(** [type(v).__name__] *)
Definition type_name (v : Value) : string :=
  match v with
  | VNone => "NoneType"
  | VBool _ => "bool"
  | VInt _ => "int"
  | VStr _ => "str"
  end.

(** [bool(v)] *)
Definition truthy (v : Value) : bool :=
  match v with
  | VNone => false
  | VBool b => b
  | VInt z => negb (z =? 0)%Z
  | VStr s => negb (String.eqb s "")
  end.

Definition db_truthy (v : DbValue) : bool :=
  match v with
  | DNull => false
  | DInt z => negb (z =? 0)%Z
  | DStr s => negb (String.eqb s "")
  end.

(** [str(v)] *)
Definition str_value (v : Value) : string :=
  match v with
  | VNone => "None"
  | VBool b => Py.str_bool b
  | VInt z => Py.str_int z
  | VStr s => s
  end.

Definition str_db (v : DbValue) : string :=
  match v with
  | DNull => "None"
  | DInt z => Py.str_int z
  | DStr s => s
  end.

(** ** The world: connections, the cursor, and the log of driver calls *)

Inductive CursorClass := DictCursor.

(** The keyword arguments of [pymysql.connect]. *)
Record ConnectArgs := {
  ca_host : string;
  ca_port : Z;
  ca_user : string;
  ca_password : string;
  ca_database : string;
  ca_ssl : option (list (string * bool));
  ca_cursorclass : CursorClass
}.

Inductive Event :=
| EvConnect (args : ConnectArgs)
| EvCursor (conn : nat)
| EvExecute (stmt : Value) (params : list Value)
| EvFetchall
| EvFetchone
| EvCommit (conn : nat)
| EvClose (conn : nat)
| EvTime.

(** [trace] is in chronological order; [open_conns] holds the handles that
    were opened and not yet closed; [rowcount] is the attribute of the
    cursor in use. *)
Record World := {
  trace : list Event;
  open_conns : list nat;
  next_conn : nat;
  rowcount : Z
}.

Definition log (e : Event) (w : World) : World :=
  {| trace := trace w ++ [e]; open_conns := open_conns w;
     next_conn := next_conn w; rowcount := rowcount w |}.

(** What the database and the clock answer, given all earlier calls.  An
    [inl msg] or [Some msg] answer is an exception with that message. *)
Record Driver := {
  on_connect : list Event -> ConnectArgs -> option string;
  on_cursor : list Event -> option string;
  on_execute : list Event -> Value -> list Value -> string + Z;
  on_fetchall : list Event -> string + list Row;
  on_fetchone : list Event -> string + option Row;
  on_commit : list Event -> option string;
  on_time : list Event -> Py.float
}.

(** ** Computations: state of the world plus exceptions *)

Definition M (A : Type) : Type := World -> Result A * World.

Definition ret {A} (a : A) : M A := fun w => (Ok a, w).

Definition raise {A} (e : Exn) : M A := fun w => (Raise e, w).

Definition bind {A B} (m : M A) (k : A -> M B) : M B :=
  fun w =>
    match m w with
    | (Ok a, w') => k a w'
    | (Raise e, w') => (Raise e, w')
    end.

(** A pure step that may raise. *)
Definition lift {A} (r : Result A) : M A := fun w => (r, w).

(** [try: body finally: fin] *)
Definition try_finally {A} (body : M A) (fin : M unit) : M A :=
  fun w =>
    match body w with
    | (r, w') =>
        match fin w' with
        | (Ok _, w'') => (r, w'')
        | (Raise e, w'') => (Raise e, w'')
        end
    end.

(** [try: body except Exception as e: handler(e)] *)
Definition try_except {A} (body : M A) (handler : Exn -> M A) : M A :=
  fun w =>
    match body w with
    | (Ok a, w') => (Ok a, w')
    | (Raise e, w') => handler e w'
    end.

Declare Scope py_scope.
Delimit Scope py_scope with py.
Notation "x <- c ;; k" := (bind c (fun x => k))
  (at level 100, c at next level, right associativity) : py_scope.
Notation "c ;;; k" := (bind c (fun _ => k))
  (at level 100, right associativity) : py_scope.

(** The same for pure code. *)
Definition rbind {A B} (r : Result A) (k : A -> Result B) : Result B :=
  match r with
  | Ok a => k a
  | Raise e => Raise e
  end.
Notation "x <~ c ;; k" := (rbind c (fun x => k))
  (at level 100, c at next level, right associativity) : py_scope.

Local Open Scope py_scope.

(** ** The driver calls *)

Section Driver_calls.

Variable drv : Driver.

(** [pymysql.connect(...)]: a fresh handle, open until closed. *)
Definition pymysql_connect (args : ConnectArgs) : M nat :=
  fun w =>
    let w1 := log (EvConnect args) w in
    match on_connect drv (trace w) args with
    | Some msg => (Raise (DatabaseError msg), w1)
    | None =>
        (Ok (next_conn w),
         {| trace := trace w1; open_conns := next_conn w :: open_conns w;
            next_conn := S (next_conn w); rowcount := rowcount w |})
    end.

(** [connection.cursor()]: a new cursor, whose [rowcount] starts at -1. *)
Definition connection_cursor (conn : nat) : M unit :=
  fun w =>
    let w1 := log (EvCursor conn) w in
    match on_cursor drv (trace w) with
    | Some msg => (Raise (DatabaseError msg), w1)
    | None =>
        (Ok tt,
         {| trace := trace w1; open_conns := open_conns w;
            next_conn := next_conn w; rowcount := -1 |})
    end.

(** [cursor.execute(stmt, params)] *)
Definition cursor_execute (stmt : Value) (params : list Value) : M unit :=
  fun w =>
    let w1 := log (EvExecute stmt params) w in
    match on_execute drv (trace w) stmt params with
    | inl msg => (Raise (DatabaseError msg), w1)
    | inr n =>
        (Ok tt,
         {| trace := trace w1; open_conns := open_conns w;
            next_conn := next_conn w; rowcount := n |})
    end.

(** [cursor.fetchall()] *)
Definition cursor_fetchall : M (list Row) :=
  fun w =>
    let w1 := log EvFetchall w in
    match on_fetchall drv (trace w) with
    | inl msg => (Raise (DatabaseError msg), w1)
    | inr rows => (Ok rows, w1)
    end.

(** [cursor.fetchone()] *)
Definition cursor_fetchone : M (option Row) :=
  fun w =>
    let w1 := log EvFetchone w in
    match on_fetchone drv (trace w) with
    | inl msg => (Raise (DatabaseError msg), w1)
    | inr row => (Ok row, w1)
    end.

(** [cursor.rowcount] *)
Definition cursor_rowcount : M Z := fun w => (Ok (rowcount w), w).

(** [connection.commit()] *)
Definition connection_commit (conn : nat) : M unit :=
  fun w =>
    let w1 := log (EvCommit conn) w in
    match on_commit drv (trace w) with
    | Some msg => (Raise (DatabaseError msg), w1)
    | None => (Ok tt, w1)
    end.

(** [connection.close()]: pymysql marks the handle closed and swallows
    any failure to say goodbye to the server, so closing an open handle
    does not raise. *)
Definition connection_close (conn : nat) : M unit :=
  fun w =>
    (Ok tt,
     {| trace := trace w ++ [EvClose conn];
        open_conns := List.filter (fun c => negb (Nat.eqb c conn)) (open_conns w);
        next_conn := next_conn w; rowcount := rowcount w |}).

(** [time.time()] *)
Definition time_time : M Py.float :=
  fun w => (Ok (on_time drv (trace w)), log EvTime w).

End Driver_calls.

(** ** [class TiDBConnection] *)

Record TiDBConnection := {
  host : string;
  port : Z;
  username : string;
  password : string;
  database : string
}.

(** The arguments that [get_connection] passes to [pymysql.connect]. *)
Definition connect_args (self : TiDBConnection) : ConnectArgs :=
  {| ca_host := host self;
     ca_port := port self;
     ca_user := username self;
     ca_password := password self;
     ca_database := database self;
     ca_ssl := if negb (String.eqb (host self) "localhost")
               then Some [("ssl", true)] else None;
     ca_cursorclass := DictCursor |}.

Definition get_connection (drv : Driver) (self : TiDBConnection) : M nat :=
  pymysql_connect drv (connect_args self).

(** ** The tool catalog of [list_tools] *)

Inductive JsonType := TString | TBoolean | TInteger.

Record Property := {
  p_name : string;
  p_type : JsonType;
  p_description : string;
  p_default : option Value;
  p_minimum : option Z;
  p_maximum : option Z
}.

Record Tool := {
  t_name : string;
  t_description : string;
  t_properties : list Property;
  t_required : list string
}.

Definition list_tools : list Tool :=
  [ {| t_name := "execute_sql";
       t_description := "Execute SQL query on TiDB database";
       t_properties :=
         [ {| p_name := "query"; p_type := TString;
              p_description := "SQL query to execute";
              p_default := None; p_minimum := None; p_maximum := None |};
           {| p_name := "measure_time"; p_type := TBoolean;
              p_description := "Whether to measure execution time";
              p_default := Some (VBool false);
              p_minimum := None; p_maximum := None |} ];
       t_required := ["query"] |};
    {| t_name := "get_table_info";
       t_description := "Get information about tables including size and row count";
       t_properties :=
         [ {| p_name := "table_name"; p_type := TString;
              p_description := "Name of the table (optional, if not provided shows all tables)";
              p_default := None; p_minimum := None; p_maximum := None |} ];
       t_required := [] |};
    {| t_name := "get_database_stats";
       t_description := "Get comprehensive database statistics";
       t_properties := [];
       t_required := [] |};
    {| t_name := "benchmark_query";
       t_description := "Run a query multiple times and measure average execution time";
       t_properties :=
         [ {| p_name := "query"; p_type := TString;
              p_description := "SQL query to benchmark";
              p_default := None; p_minimum := None; p_maximum := None |};
           {| p_name := "iterations"; p_type := TInteger;
              p_description := "Number of times to run the query";
              p_default := Some (VInt 5);
              p_minimum := Some 1; p_maximum := Some 50 |} ];
       t_required := ["query"] |} ].

(** ** [TextContent] and dictionary access *)

Record TextContent := { tc_type : string; tc_text : string }.

Definition text_content (s : string) : TextContent :=
  {| tc_type := "text"; tc_text := s |}.

(** [arguments[key]] *)
Definition getitem (arguments : gmap string Value) (key : string) : Result Value :=
  match arguments !! key with
  | Some v => Ok v
  | None => Raise (KeyError key)
  end.

(** [arguments.get(key, dflt)] *)
Definition get_default (arguments : gmap string Value) (key : string)
    (dflt : Value) : Value :=
  default dflt (arguments !! key).

Fixpoint row_lookup (row : Row) (key : string) : option DbValue :=
  match row with
  | [] => None
  | (k, v) :: row' => if String.eqb k key then Some v else row_lookup row' key
  end.

(** [row[key]] *)
Definition row_getitem (row : Row) (key : string) : Result DbValue :=
  match row_lookup row key with
  | Some v => Ok v
  | None => Raise (KeyError key)
  end.

(** [row[key]] where [row] is the result of [fetchone()], which is [None]
    when there is no row. *)
Definition opt_row_getitem (row : option Row) (key : string) : Result DbValue :=
  match row with
  | Some r => row_getitem r key
  | None => Raise (TypeError "'NoneType' object is not subscriptable")
  end.

(** ** The statement test of lines 153, 315 and 322 *)

Definition projection_keywords : list string :=
  ["SELECT"; "SHOW"; "DESCRIBE"; "EXPLAIN"].

(** [query.strip().upper().startswith(('SELECT', 'SHOW', 'DESCRIBE', 'EXPLAIN'))] *)
Definition is_projection (query : string) : bool :=
  Py.startswith (Py.upper (Py.strip query)) projection_keywords.

(** The same on an argument value: only a [str] has [strip]. *)
Definition value_is_projection (query : Value) : Result bool :=
  match query with
  | VStr s => Ok (is_projection s)
  | v => Raise (AttributeError
                  ("'" ++ type_name v ++ "' object has no attribute 'strip'"))
  end.

(** ** Formatting of column values *)

(** [f"{v:,}"] *)
Definition format_comma_db (v : DbValue) : Result string :=
  match v with
  | DInt z => Ok (Py.format_comma z)
  | DNull => Raise (TypeError "unsupported format string passed to NoneType.__format__")
  | DStr _ => Raise (ValueError "Cannot specify ',' with 's'.")
  end.

(** [z/1024/1024] for an [int]: the quotient of two [int]s is the nearest
    float to the exact quotient, and is then divided as a float.  (Python
    raises [OverflowError] where the first quotient is beyond the largest
    float, for counts of 2^1034 and more; the model gives infinity there.) *)
Definition megabytes (z : Z) : Py.float :=
  Py.fdiv (binary_normalize Py.prec Py.emax z (-10) false) (Py.float_of_int 1024).

(** [f"{v/1024/1024:.2f}"] *)
Definition format_mb_db (v : DbValue) : Result string :=
  match v with
  | DInt z => Ok (Py.format_2f (megabytes z))
  | DNull => Raise (TypeError "unsupported operand type(s) for /: 'NoneType' and 'int'")
  | DStr _ => Raise (TypeError "unsupported operand type(s) for /: 'str' and 'int'")
  end.

(** [f"{v:,} bytes ({v/1024/1024:.2f} MB)"] *)
Definition format_size (v : DbValue) : Result string :=
  c <~ format_comma_db v ;;
  m <~ format_mb_db v ;;
  Ok (c ++ " bytes (" ++ m ++ " MB)").

(** [(end_time - start_time) * 1000], where both are [None] when the time
    is not measured. *)
Definition elapsed_ms (start_time end_time : option Py.float) : Result Py.float :=
  match start_time, end_time with
  | Some s, Some e => Ok (Py.fmul (Py.fsub e s) (Py.float_of_int 1000))
  | _, _ => Raise (TypeError "unsupported operand type(s) for -: 'NoneType' and 'NoneType'")
  end.

(** ** The statements of [get_table_info] and [get_database_stats] *)

Definition one_table_sql : string :=
  Py.join nl
    [ "";
      "                SELECT ";
      "                    table_name,";
      "                    table_rows,";
      "                    data_length,";
      "                    index_length,";
      "                    (data_length + index_length) as total_size,";
      "                    auto_increment,";
      "                    table_comment";
      "                FROM information_schema.tables ";
      "                WHERE table_schema = %s AND table_name = %s";
      "            " ].

Definition all_tables_sql : string :=
  Py.join nl
    [ "";
      "                SELECT ";
      "                    table_name,";
      "                    table_rows,";
      "                    data_length,";
      "                    index_length,";
      "                    (data_length + index_length) as total_size,";
      "                    auto_increment,";
      "                    table_comment";
      "                FROM information_schema.tables ";
      "                WHERE table_schema = %s";
      "                ORDER BY total_size DESC";
      "            " ].

Definition db_info_sql : string :=
  "SELECT DATABASE() as current_db, VERSION() as version".

Definition table_stats_sql : string :=
  Py.join nl
    [ "";
      "            SELECT ";
      "                COUNT(*) as table_count,";
      "                SUM(table_rows) as total_rows,";
      "                SUM(data_length) as total_data_size,";
      "                SUM(index_length) as total_index_size,";
      "                SUM(data_length + index_length) as total_size";
      "            FROM information_schema.tables ";
      "            WHERE table_schema = %s";
      "        " ].

Definition threads_sql : string := "SHOW STATUS LIKE 'Threads_connected'".

(** ** The four tools and the dispatcher *)

Section Server.

Variable drv : Driver.

(** The module-level [db = TiDBConnection()]. *)
Variable db : TiDBConnection.

(** [json.dumps(results, indent=2, default=str)], a library function. *)
Variable json_dumps : list Row -> string.

(** [time.time() if measure_time else None] *)
Definition time_if (measure_time : bool) : M (option Py.float) :=
  if measure_time then (t <- time_time drv ;; ret (Some t)) else ret None.

(** The line [Execution time: ...], present when the time is measured. *)
Definition execution_time_line (measure_time : bool)
    (start_time end_time : option Py.float) : Result string :=
  if measure_time then
    execution_time <~ elapsed_ms start_time end_time ;;
    Ok ("Execution time: " ++ Py.format_2f execution_time ++ " ms" ++ nl)
  else Ok "".

Definition execute_sql (arguments : gmap string Value) : M (list TextContent) :=
  query <- lift (getitem arguments "query") ;;
  let measure_time := truthy (get_default arguments "measure_time" (VBool false)) in
  connection <- get_connection drv db ;;
  try_finally
    (connection_cursor drv connection ;;;
     start_time <- time_if measure_time ;;
     cursor_execute drv query [] ;;;
     end_time <- time_if measure_time ;;
     projection <- lift (value_is_projection query) ;;
     if projection : bool then
       results <- cursor_fetchall drv ;;
       let result_text := "Query executed successfully." ++ nl in
       timing <- lift (execution_time_line measure_time start_time end_time) ;;
       let result_text := result_text ++ timing in
       let result_text :=
         result_text ++ "Rows returned: "
           ++ Py.str_int (Z.of_nat (List.length results)) ++ nl ++ nl in
       let result_text :=
         result_text ++
           match results with
           | _ :: _ => json_dumps results
           | [] => "No rows returned."
           end in
       ret [text_content result_text]
     else
       connection_commit drv connection ;;;
       affected_rows <- cursor_rowcount ;;
       let result_text := "Query executed successfully." ++ nl in
       timing <- lift (execution_time_line measure_time start_time end_time) ;;
       let result_text := result_text ++ timing in
       let result_text :=
         result_text ++ "Affected rows: " ++ Py.str_int affected_rows in
       ret [text_content result_text])
    (connection_close connection).

(** The body of the loop [for table in results] of [get_table_info]:
    the text added for one table. *)
Definition table_text (table : Row) : Result string :=
  name <~ row_getitem table "table_name" ;;
  let t := "Table: " ++ str_db name ++ nl in
  rows <~ row_getitem table "table_rows" ;;
  rows_s <~ format_comma_db rows ;;
  let t := t ++ "  Rows: " ++ rows_s ++ nl in
  data <~ row_getitem table "data_length" ;;
  data_s <~ format_size data ;;
  let t := t ++ "  Data size: " ++ data_s ++ nl in
  index <~ row_getitem table "index_length" ;;
  index_s <~ format_size index ;;
  let t := t ++ "  Index size: " ++ index_s ++ nl in
  total <~ row_getitem table "total_size" ;;
  total_s <~ format_size total ;;
  let t := t ++ "  Total size: " ++ total_s ++ nl in
  auto <~ row_getitem table "auto_increment" ;;
  let t := if db_truthy auto
           then t ++ "  Auto increment: " ++ str_db auto ++ nl else t in
  comment <~ row_getitem table "table_comment" ;;
  let t := if db_truthy comment
           then t ++ "  Comment: " ++ str_db comment ++ nl else t in
  Ok (t ++ nl).

(** The loop itself: the texts of the tables, in the order of [results]. *)
Fixpoint tables_text (result_text : string) (results : list Row) : Result string :=
  match results with
  | [] => Ok result_text
  | table :: rest =>
      t <~ table_text table ;;
      tables_text (result_text ++ t) rest
  end.

Definition get_table_info (arguments : gmap string Value) : M (list TextContent) :=
  let table_name := get_default arguments "table_name" VNone in
  connection <- get_connection drv db ;;
  try_finally
    (connection_cursor drv connection ;;;
     (if truthy table_name
      then cursor_execute drv (VStr one_table_sql) [VStr (database db); table_name]
      else cursor_execute drv (VStr all_tables_sql) [VStr (database db)]) ;;;
     results <- cursor_fetchall drv ;;
     match results with
     | [] => ret [text_content "No tables found."]
     | _ :: _ =>
         result_text <- lift (tables_text ("Table Information:" ++ nl ++ nl) results) ;;
         ret [text_content result_text]
     end)
    (connection_close connection).

(** The report of [get_database_stats], from the three fetched rows. *)
Definition stats_text (db_info stats connections : option Row) : Result string :=
  let t := "Database Statistics" ++ nl in
  let t := t ++ "==================" ++ nl ++ nl in
  current_db <~ opt_row_getitem db_info "current_db" ;;
  let t := t ++ "Database: " ++ str_db current_db ++ nl in
  version <~ opt_row_getitem db_info "version" ;;
  let t := t ++ "Version: " ++ str_db version ++ nl in
  let t := t ++ "Host: " ++ host db ++ ":" ++ Py.str_int (port db) ++ nl ++ nl in
  let t := t ++ "Table Statistics:" ++ nl in
  table_count <~ opt_row_getitem stats "table_count" ;;
  let t := t ++ "  Total tables: " ++ str_db table_count ++ nl in
  total_rows <~ opt_row_getitem stats "total_rows" ;;
  rows_s <~ format_comma_db total_rows ;;
  let t := t ++ "  Total rows: " ++ rows_s ++ nl in
  data <~ opt_row_getitem stats "total_data_size" ;;
  data_s <~ format_size data ;;
  let t := t ++ "  Data size: " ++ data_s ++ nl in
  index <~ opt_row_getitem stats "total_index_size" ;;
  index_s <~ format_size index ;;
  let t := t ++ "  Index size: " ++ index_s ++ nl in
  total <~ opt_row_getitem stats "total_size" ;;
  total_s <~ format_size total ;;
  let t := t ++ "  Total size: " ++ total_s ++ nl ++ nl in
  match connections with
  | Some (_ :: _) =>
      value <~ opt_row_getitem connections "Value" ;;
      Ok (t ++ "Active connections: " ++ str_db value ++ nl)
  | _ => Ok t
  end.

Definition get_database_stats (arguments : gmap string Value) : M (list TextContent) :=
  connection <- get_connection drv db ;;
  try_finally
    (connection_cursor drv connection ;;;
     cursor_execute drv (VStr db_info_sql) [] ;;;
     db_info <- cursor_fetchone drv ;;
     cursor_execute drv (VStr table_stats_sql) [VStr (database db)] ;;;
     stats <- cursor_fetchone drv ;;
     cursor_execute drv (VStr threads_sql) [] ;;;
     connections <- cursor_fetchone drv ;;
     result_text <- lift (stats_text db_info stats connections) ;;
     ret [text_content result_text])
    (connection_close connection).

(** [iterations > 50]: a [bool] compares as 0 or 1; [None] and [str] do
    not compare with an [int]. *)
Definition gt_50 (iterations : Value) : Result bool :=
  match iterations with
  | VInt z => Ok (50 <? z)%Z
  | VBool b => Ok false
  | v => Raise (TypeError ("'>' not supported between instances of '"
                           ++ type_name v ++ "' and 'int'"))
  end.

(** [if iterations > 50: iterations = 50] *)
Definition cap_iterations (iterations : Value) : Result Value :=
  above <~ gt_50 iterations ;;
  Ok (if above : bool then VInt 50 else iterations).

(** [len(range(iterations))]: nothing for a count below one. *)
Definition range_len (iterations : Value) : Result nat :=
  match iterations with
  | VInt z => Ok (Z.to_nat z)
  | VBool b => Ok (if b then 1%nat else 0%nat)
  | v => Raise (TypeError ("'" ++ type_name v
                           ++ "' object cannot be interpreted as an integer"))
  end.

(** One run of the statement: execute, and fetch if it is a projection. *)
Definition run_once (query : Value) : M unit :=
  cursor_execute drv query [] ;;;
  projection <- lift (value_is_projection query) ;;
  if projection : bool then (_ <- cursor_fetchall drv ;; ret tt) else ret tt.

(** The loop [for i in range(iterations)]: [n] timed runs, each appending
    its elapsed milliseconds to [times]. *)
Fixpoint benchmark_runs (query : Value) (n : nat) (times : list Py.float)
    : M (list Py.float) :=
  match n with
  | O => ret times
  | S n' =>
      start_time <- time_time drv ;;
      run_once query ;;;
      end_time <- time_time drv ;;
      let execution_time :=
        Py.fmul (Py.fsub end_time start_time) (Py.float_of_int 1000) in
      benchmark_runs query n' (times ++ [execution_time])
  end.

(** [sum(times) / len(times)]: the rounded sum, divided as a float by the
    length. *)
Definition average (times : list Py.float) : Result Py.float :=
  match times with
  | [] => Raise (ZeroDivisionError "division by zero")
  | _ :: _ =>
      Ok (Py.fdiv (Py.sum times) (Py.float_of_int (Z.of_nat (List.length times))))
  end.

(** [min(times)] and [max(times)] *)
Definition minimum (times : list Py.float) : Result Py.float :=
  match times with
  | [] => Raise (ValueError "min() arg is an empty sequence")
  | t :: ts => Ok (Py.min_from t ts)
  end.

Definition maximum (times : list Py.float) : Result Py.float :=
  match times with
  | [] => Raise (ValueError "max() arg is an empty sequence")
  | t :: ts => Ok (Py.max_from t ts)
  end.

Definition benchmark_query (arguments : gmap string Value) : M (list TextContent) :=
  query <- lift (getitem arguments "query") ;;
  let iterations := get_default arguments "iterations" (VInt 5) in
  iterations <- lift (cap_iterations iterations) ;;
  let times : list Py.float := [] in
  connection <- get_connection drv db ;;
  try_finally
    (connection_cursor drv connection ;;;
     run_once query ;;;
     n <- lift (range_len iterations) ;;
     times <- benchmark_runs query n times ;;
     avg_time <- lift (average times) ;;
     min_time <- lift (minimum times) ;;
     max_time <- lift (maximum times) ;;
     let result_text := "Query Benchmark Results" ++ nl in
     let result_text := result_text ++ "======================" ++ nl ++ nl in
     let result_text := result_text ++ "Query: " ++ str_value query ++ nl in
     let result_text :=
       result_text ++ "Iterations: " ++ str_value iterations ++ nl ++ nl in
     let result_text :=
       result_text ++ "Average execution time: " ++ Py.format_2f avg_time
       ++ " ms" ++ nl in
     let result_text :=
       result_text ++ "Minimum execution time: " ++ Py.format_2f min_time
       ++ " ms" ++ nl in
     let result_text :=
       result_text ++ "Maximum execution time: " ++ Py.format_2f max_time
       ++ " ms" ++ nl ++ nl in
     let result_text :=
       result_text ++ "Individual times: "
       ++ Py.repr_str_list (map Py.format_2f times) ++ " ms" ++ nl in
     ret [text_content result_text])
    (connection_close connection).

Definition call_tool (name : string) (arguments : gmap string Value)
    : M (list TextContent) :=
  try_except
    (if String.eqb name "execute_sql" then execute_sql arguments
     else if String.eqb name "get_table_info" then get_table_info arguments
     else if String.eqb name "get_database_stats" then get_database_stats arguments
     else if String.eqb name "benchmark_query" then benchmark_query arguments
     else ret [text_content ("Unknown tool: " ++ name)])
    (fun e => ret [text_content ("Error: " ++ str_exn e)]).

End Server.

(** ** Concrete worlds and drivers, for running the model *)

Definition world0 : World :=
  {| trace := []; open_conns := []; next_conn := 0%nat; rowcount := -1 |}.

(** The configuration that [__init__] builds when no variable is set. *)
Definition default_db : TiDBConnection :=
  {| host := "localhost"; port := 4000; username := "root";
     password := ""; database := "test" |}.

Definition db_at (h : string) : TiDBConnection :=
  {| host := h; port := 4000; username := "root";
     password := ""; database := "test" |}.

(** A database that answers every call: [rows] to every fetch, [affected]
    rows to every statement, and a clock that advances by a growing step
    with every driver call. *)
Definition steady_driver (rows : list Row) (affected : Z) : Driver :=
  {| on_connect := fun _ _ => None;
     on_cursor := fun _ => None;
     on_execute := fun _ _ _ => inr affected;
     on_fetchall := fun _ => inr rows;
     on_fetchone := fun _ => inr (hd_error rows);
     on_commit := fun _ => None;
     on_time := fun tr =>
       let n := Z.of_nat (List.length tr) in
       Py.fdiv (Py.float_of_int (n * n)) (Py.float_of_int 1000) |}.

(** A database that cannot be reached. *)
Definition refusing_driver : Driver :=
  {| on_connect := fun _ _ => Some "(2003, 'connection refused')";
     on_cursor := fun _ => None;
     on_execute := fun _ _ _ => inr 0;
     on_fetchall := fun _ => inr [];
     on_fetchone := fun _ => inr None;
     on_commit := fun _ => None;
     on_time := fun _ => Py.float_of_int 0 |}.

(** A database that accepts the connection and then fails every statement. *)
Definition failing_driver : Driver :=
  {| on_connect := fun _ _ => None;
     on_cursor := fun _ => None;
     on_execute := fun _ _ _ => inl "(1064, 'syntax error')";
     on_fetchall := fun _ => inl "(2014, 'commands out of sync')";
     on_fetchone := fun _ => inl "(2014, 'commands out of sync')";
     on_commit := fun _ => None;
     on_time := fun _ => Py.float_of_int 0 |}.

Definition table_row (name : string) (rows data index : Z) : Row :=
  [ ("table_name", DStr name); ("table_rows", DInt rows);
    ("data_length", DInt data); ("index_length", DInt index);
    ("total_size", DInt (data + index)); ("auto_increment", DNull);
    ("table_comment", DStr "") ].

(** One row that has the columns of all three statements of
    [get_database_stats]. *)
Definition stats_row : Row :=
  [ ("current_db", DStr "test"); ("version", DStr "8.0.11-TiDB-v7.5.0");
    ("table_count", DInt 2); ("total_rows", DInt 1215);
    ("total_data_size", DInt 3162112); ("total_index_size", DInt 1048576);
    ("total_size", DInt 4210688); ("Value", DStr "3") ].

(** The property [iterations] of the catalog entry of [benchmark_query]. *)
Definition iterations_property : option Property :=
  match List.find (fun t => String.eqb (t_name t) "benchmark_query") list_tools with
  | Some t => List.find (fun p => String.eqb (p_name p) "iterations") (t_properties t)
  | None => None
  end.

Definition two_tables : list Row :=
  [ table_row "orders" 1200 3145728 1048576; table_row "users" 15 16384 0 ].

(** A stand-in for [json.dumps] that only says how many rows it was given. *)
Definition count_dumps (rows : list Row) : string :=
  "<" ++ Py.str_int (Z.of_nat (List.length rows)) ++ " rows>".

Definition args_of (l : list (string * Value)) : gmap string Value :=
  list_to_map l.

(** ** Predicates used in the statements *)

(** The trimmed, upper-cased statement begins with one of the keywords. *)
Definition begins_with_keyword (query : string) : Prop :=
  exists kw rest,
    In kw projection_keywords /\ Py.upper (Py.strip query) = kw ++ rest.


(** The names of the catalog. *)
Definition tool_names : list string := map t_name list_tools.

(** Every open handle was handed out earlier. *)
Definition handles_fresh (w : World) : Prop :=
  Forall (fun c => (c < next_conn w)%nat) (open_conns w).

(** A computation that neither opens nor closes a connection. *)
Definition same_conns (w w' : World) : Prop :=
  open_conns w' = open_conns w /\ next_conn w' = next_conn w.

Definition stable {A} (m : M A) : Prop :=
  forall w, same_conns w (snd (m w)).

(** A database that answers every call without raising. *)
Definition answers_all (drv : Driver) : Prop :=
  (forall tr args, on_connect drv tr args = None) /\
  (forall tr, on_cursor drv tr = None) /\
  (forall tr stmt params, exists n, on_execute drv tr stmt params = inr n) /\
  (forall tr, exists rows, on_fetchall drv tr = inr rows) /\
  (forall tr, exists row, on_fetchone drv tr = inr row) /\
  (forall tr, on_commit drv tr = None).

(** The hosts that the specification names as loopback addresses, for
    comparison with the test that [get_connection] makes. *)
Definition spec_loopback_host (h : string) : bool :=
  String.eqb h "localhost" || String.eqb h "127.0.0.1".

(** The driver calls of one run of a statement, and of one timed run. *)
Definition run_events (query : string) : list Event :=
  EvExecute (VStr query) [] :: (if is_projection query then [EvFetchall] else []).

Definition timed_run_events (query : string) : list Event :=
  [EvTime] ++ run_events query ++ [EvTime].

Fixpoint repeat_events (n : nat) (evs : list Event) : list Event :=
  match n with
  | O => []
  | S n' => evs ++ repeat_events n' evs
  end.

(** The clock is read only when the time is measured. *)
Definition clock_events (measure_time : bool) : list Event :=
  if measure_time then [EvTime] else [].

(** The driver calls of a complete run of [execute_sql] on connection [c]:
    [last] is the fetch or the commit. *)
Definition execute_sql_events (db : TiDBConnection) (c : nat)
    (measure_time : bool) (query : string) (last : Event) : list Event :=
  [EvConnect (connect_args db); EvCursor c] ++ clock_events measure_time
  ++ [EvExecute (VStr query) []] ++ clock_events measure_time
  ++ [last; EvClose c].

(** The two shapes of the report of [execute_sql]. *)
Definition rows_report (timing : string) (count : nat) (body : string) : string :=
  "Query executed successfully." ++ nl ++ timing
  ++ "Rows returned: " ++ Py.str_int (Z.of_nat count) ++ nl ++ nl ++ body.

Definition affected_report (timing : string) (affected : Z) : string :=
  "Query executed successfully." ++ nl ++ timing
  ++ "Affected rows: " ++ Py.str_int affected.

(** The histories that the database has seen at the successive calls of
    [execute_sql], started in world [w]. *)
Definition measure_time_of (arguments : gmap string Value) : bool :=
  truthy (get_default arguments "measure_time" (VBool false)).

Definition connected_at (db : TiDBConnection) (w : World) : list Event :=
  trace w ++ [EvConnect (connect_args db)].

Definition opened_at (db : TiDBConnection) (w : World) : list Event :=
  trace w ++ [EvConnect (connect_args db); EvCursor (next_conn w)].

Definition started_at (db : TiDBConnection) (w : World) (measure_time : bool)
    : list Event :=
  opened_at db w ++ clock_events measure_time.

Definition executed_at (db : TiDBConnection) (w : World) (measure_time : bool)
    (query : string) : list Event :=
  started_at db w measure_time ++ [EvExecute (VStr query) []].

Definition timed_at (db : TiDBConnection) (w : World) (measure_time : bool)
    (query : string) : list Event :=
  executed_at db w measure_time query ++ clock_events measure_time.

(** The line of the report that gives the time around the execute call. *)
Definition timing_line (drv : Driver) (db : TiDBConnection) (w : World)
    (measure_time : bool) (query : string) : string :=
  if measure_time
  then "Execution time: "
       ++ Py.format_2f
            (Py.fmul (Py.fsub (on_time drv (executed_at db w true query))
                              (on_time drv (opened_at db w)))
                     (Py.float_of_int 1000))
       ++ " ms" ++ nl
  else "".

(** The body of the report for the fetched rows. *)
Definition rows_body (json_dumps : list Row -> string) (rows : list Row) : string :=
  match rows with
  | [] => "No rows returned."
  | _ :: _ => json_dumps rows
  end.

(** The statement and the parameters that [get_table_info] sends: those of
    the branch that the truth value of [table_name] selects. *)
Definition table_info_stmt (arguments : gmap string Value) : Value :=
  if truthy (get_default arguments "table_name" VNone)
  then VStr one_table_sql else VStr all_tables_sql.

Definition table_info_params (db : TiDBConnection)
    (arguments : gmap string Value) : list Value :=
  let table_name := get_default arguments "table_name" VNone in
  if truthy table_name
  then [VStr (database db); table_name] else [VStr (database db)].





(** ** The driver calls that a computation makes *)

(** Every driver call that [m] adds to the log satisfies [P]. *)
Definition emits {A} (P : Event -> Prop) (m : M A) : Prop :=
  forall w, exists evs,
    trace (snd (m w)) = (trace w ++ evs)%list /\ Forall P evs.

(** A call made on an open connection: neither a connect nor a close. *)
Definition inner_call (e : Event) : Prop :=
  match e with
  | EvConnect _ | EvClose _ => False
  | _ => True
  end.

(** The calls that [execute_sql] can make for the statement value [query]:
    the clock only when the time is measured. *)
Definition execute_sql_call (query : Value) (measure_time : bool) (e : Event) : Prop :=
  match e with
  | EvCursor _ | EvFetchall | EvCommit _ => True
  | EvExecute stmt params => stmt = query /\ params = []
  | EvTime => measure_time = true
  | _ => False
  end.

(** The calls that [get_table_info] can make. *)
Definition table_info_call (db : TiDBConnection) (table_name : Value) (e : Event) : Prop :=
  match e with
  | EvCursor _ | EvFetchall => True
  | EvExecute stmt params =>
      (stmt = VStr one_table_sql /\ params = [VStr (database db); table_name])
      \/ (stmt = VStr all_tables_sql /\ params = [VStr (database db)])
  | _ => False
  end.

(** The calls that [get_database_stats] can make. *)
Definition database_stats_call (db : TiDBConnection) (e : Event) : Prop :=
  match e with
  | EvCursor _ | EvFetchone => True
  | EvExecute stmt params =>
      (stmt = VStr db_info_sql /\ params = [])
      \/ (stmt = VStr table_stats_sql /\ params = [VStr (database db)])
      \/ (stmt = VStr threads_sql /\ params = [])
  | _ => False
  end.

(** The calls that [benchmark_query] can make for the statement value
    [query]. *)
Definition benchmark_call (query : Value) (e : Event) : Prop :=
  match e with
  | EvCursor _ | EvFetchall | EvTime => True
  | EvExecute stmt params => stmt = query /\ params = []
  | _ => False
  end.

(** The log of one scoped use of a connection, started in world [w]: a
    refused connect, or a connect, calls that satisfy [P], and the close
    of the handle that the connect returned. *)
Definition scoped_log (db : TiDBConnection) (P : Event -> Prop) (w w' : World) : Prop :=
  trace w' = (trace w ++ [EvConnect (connect_args db)])%list
  \/ exists mid,
       trace w' = (trace w ++ EvConnect (connect_args db) :: mid
                   ++ [EvClose (next_conn w)])%list
       /\ Forall P mid.

(** The calls of a tool: the connect with the arguments of the
    configuration, the close, and the calls [P] in between. *)
Definition tool_call (db : TiDBConnection) (P : Event -> Prop) (e : Event) : Prop :=
  e = EvConnect (connect_args db) \/ (exists c, e = EvClose c) \/ P e.

(** What a tool adds to the log: nothing, or one scoped use of a
    connection. *)
Definition tool_log (db : TiDBConnection) (P : Event -> Prop) (w w' : World) : Prop :=
  trace w' = trace w \/ scoped_log db P w w'.

(** A string of white space only (the empty string included). *)
Fixpoint blank (s : string) : bool :=
  match s with
  | EmptyString => true
  | String c s' => Py.isspace c && blank s'
  end.

(** A row that [get_table_info] can print: it has the seven columns, and
    the four counts are integers. *)
Definition printable_table (table : Row) : Prop :=
  (exists v, row_lookup table "table_name" = Some v) /\
  (exists z, row_lookup table "table_rows" = Some (DInt z)) /\
  (exists z, row_lookup table "data_length" = Some (DInt z)) /\
  (exists z, row_lookup table "index_length" = Some (DInt z)) /\
  (exists z, row_lookup table "total_size" = Some (DInt z)) /\
  (exists v, row_lookup table "auto_increment" = Some v) /\
  (exists v, row_lookup table "table_comment" = Some v).

(** The calls of [get_database_stats] between the cursor and the close, and
    the history that the database has seen after the first [k] of them. *)
Definition stats_events (db : TiDBConnection) : list Event :=
  [ EvExecute (VStr db_info_sql) []; EvFetchone;
    EvExecute (VStr table_stats_sql) [VStr (database db)]; EvFetchone;
    EvExecute (VStr threads_sql) []; EvFetchone ].

Definition stats_history (db : TiDBConnection) (w : World) (k : nat) : list Event :=
  opened_at db w ++ firstn k (stats_events db).

(** A computation whose results, when it returns one, satisfy [Q]. *)
Definition returns {A} (Q : A -> Prop) (m : M A) : Prop :=
  forall w a w', m w = (Ok a, w') -> Q a.

(** A result that is one block of text. *)
Definition one_text (out : list TextContent) : Prop :=
  exists t, out = [text_content t].

(** ** [TiDBConnection.__init__] *)

(** [os.getenv(key, dflt)], on the environment of the process as it is
    after [load_dotenv()]. *)
Definition getenv (environ : gmap string string) (key dflt : string) : string :=
  default dflt (environ !! key).

Section Init.

(** The built-in [int(s)]. *)
Variable int : string -> Result Z.

Definition TiDBConnection__init__ (environ : gmap string string)
    : Result TiDBConnection :=
  let host := getenv environ "TIDB_HOST" "localhost" in
  port <~ int (getenv environ "TIDB_PORT" "4000") ;;
  let username := getenv environ "TIDB_USERNAME" "root" in
  let password := getenv environ "TIDB_PASSWORD" "" in
  let database := getenv environ "TIDB_DATABASE" "test" in
  Ok {| host := host; port := port; username := username;
        password := password; database := database |}.

End Init.

(** A stand-in for [int] that reads plain decimal digits. *)
Fixpoint digits_value (s : string) (acc : Z) : option Z :=
  match s with
  | EmptyString => Some acc
  | String c s' =>
      let n := N_of_ascii c in
      if ((48 <=? n) && (n <=? 57))%N
      then digits_value s' (10 * acc + Z.of_N (n - 48))
      else None
  end.

Definition decimal_int (s : string) : Result Z :=
  match s, digits_value s 0 with
  | String _ _, Some z => Ok z
  | _, _ => Raise (ValueError ("invalid literal for int() with base 10: '"
                               ++ s ++ "'"))
  end.

(** How often a log executes a statement. *)
Definition is_execute (e : Event) : bool :=
  match e with
  | EvExecute _ _ => true
  | _ => false
  end.

Definition executions (evs : list Event) : nat :=
  List.length (List.filter is_execute evs).

(** ** The reports of [benchmark_query] and [get_table_info], as text *)

(** The elapsed milliseconds of [n] successive timed runs of [query], the
    first of which reads the clock after the history [h]. *)
Fixpoint clock_times (drv : Driver) (query : string) (h : list Event) (n : nat)
    : list Py.float :=
  match n with
  | O => []
  | S n' =>
      let ran := (h ++ [EvTime] ++ run_events query)%list in
      Py.fmul (Py.fsub (on_time drv ran) (on_time drv h)) (Py.float_of_int 1000)
      :: clock_times drv query (ran ++ [EvTime])%list n'
  end.

(** The report of a benchmark of [query] that names [iterations] runs. *)
Definition benchmark_report (query : string) (iterations : Z)
    (avg_time min_time max_time : Py.float) (times : list Py.float) : string :=
  "Query Benchmark Results" ++ nl
  ++ "======================" ++ nl
  ++ nl
  ++ "Query: " ++ query ++ nl
  ++ "Iterations: " ++ Py.str_int iterations ++ nl
  ++ nl
  ++ "Average execution time: " ++ Py.format_2f avg_time ++ " ms" ++ nl
  ++ "Minimum execution time: " ++ Py.format_2f min_time ++ " ms" ++ nl
  ++ "Maximum execution time: " ++ Py.format_2f max_time ++ " ms" ++ nl
  ++ nl
  ++ "Individual times: " ++ Py.repr_str_list (map Py.format_2f times)
  ++ " ms" ++ nl.

(** No element of [times] is below [t], by the comparison of Python. *)
Definition none_below (t : Py.float) (times : list Py.float) : Prop :=
  Forall (fun x => Py.flt x t = false) times.

Definition none_above (t : Py.float) (times : list Py.float) : Prop :=
  Forall (fun x => Py.flt t x = false) times.

(** How often a history has read the clock. *)
Definition is_time (e : Event) : bool :=
  match e with
  | EvTime => true
  | _ => false
  end.

Definition clock_reads (evs : list Event) : nat :=
  List.length (List.filter is_time evs).

(** A database that answers every call, with a clock that reads 0.0 at
    the start of every timed run and 0.000245 at its end. *)
Definition quarter_ms_driver : Driver :=
  {| on_connect := fun _ _ => None;
     on_cursor := fun _ => None;
     on_execute := fun _ _ _ => inr 1;
     on_fetchall := fun _ => inr [];
     on_fetchone := fun _ => inr None;
     on_commit := fun _ => None;
     on_time := fun tr =>
       if Nat.even (clock_reads tr) then Py.float_of_int 0
       else Py.fdiv (Py.float_of_int 245) (Py.float_of_int 1000000) |}.









(** The float nearest to the quotient of two integers. *)
Definition float_ratio (n d : Z) : Py.float :=
  Py.fdiv (Py.float_of_int n) (Py.float_of_int d).

(** A statement of ASCII characters only. *)
Fixpoint ascii_only (s : string) : bool :=
  match s with
  | EmptyString => true
  | String c s' => (N_of_ascii c <? 128)%N && ascii_only s'
  end.
(** * Properties *)

(** ** The model on concrete inputs *)

Example strip_ex : Py.strip "  select 1 ; " = "select 1 ;".
Proof. reflexivity. Qed.

Example format_ex :
  Py.format_comma 1234567 = "1,234,567" /\ Py.format_comma (-1234) = "-1,234" /\
  Py.format_comma 0 = "0" /\ Py.format_comma 123 = "123" /\
  Py.format_2f (float_ratio 1 8) = "0.12" /\
  Py.format_2f (float_ratio (-1) 1000) = "-0.00" /\
  Py.format_2f (float_ratio 12345 10) = "1234.50" /\
  Py.format_2f (float_ratio 3 8) = "0.38" /\
  Py.format_2f (float_ratio 15 1000) = "0.01" /\
  Py.format_2f (float_ratio 2675 1000) = "2.67" /\
  Py.repr_str_list ["1.00"; "2.50"] = "['1.00', '2.50']".
Proof. repeat split; vm_compute; reflexivity. Qed.

Example execute_sql_empty_select :
  fst (call_tool (steady_driver [] 0) default_db count_dumps "execute_sql"
         (args_of [("query", VStr "select * from t")]) world0)
  = Ok [text_content ("Query executed successfully." ++ nl
                      ++ "Rows returned: 0" ++ nl ++ nl ++ "No rows returned.")].
Proof. vm_compute. reflexivity. Qed.

Example execute_sql_update_timed :
  fst (call_tool (steady_driver [] 3) default_db count_dumps "execute_sql"
         (args_of [("query", VStr "UPDATE t SET a = 1"); ("measure_time", VBool true)])
         world0)
  = Ok [text_content ("Query executed successfully." ++ nl
                      ++ "Execution time: 12.00 ms" ++ nl ++ "Affected rows: 3")].
Proof. vm_compute. reflexivity. Qed.

Example get_table_info_two_tables :
  fst (call_tool (steady_driver two_tables 0) default_db count_dumps "get_table_info"
         (args_of []) world0)
  = Ok [text_content
          ("Table Information:" ++ nl ++ nl
           ++ "Table: orders" ++ nl
           ++ "  Rows: 1,200" ++ nl
           ++ "  Data size: 3,145,728 bytes (3.00 MB)" ++ nl
           ++ "  Index size: 1,048,576 bytes (1.00 MB)" ++ nl
           ++ "  Total size: 4,194,304 bytes (4.00 MB)" ++ nl ++ nl
           ++ "Table: users" ++ nl
           ++ "  Rows: 15" ++ nl
           ++ "  Data size: 16,384 bytes (0.02 MB)" ++ nl
           ++ "  Index size: 0 bytes (0.00 MB)" ++ nl
           ++ "  Total size: 16,384 bytes (0.02 MB)" ++ nl ++ nl)].
Proof. vm_compute. reflexivity. Qed.

Example get_database_stats_run :
  fst (call_tool (steady_driver [stats_row] 0) default_db count_dumps
         "get_database_stats" (args_of []) world0)
  = Ok [text_content
          ("Database Statistics" ++ nl
           ++ "==================" ++ nl ++ nl
           ++ "Database: test" ++ nl
           ++ "Version: 8.0.11-TiDB-v7.5.0" ++ nl
           ++ "Host: localhost:4000" ++ nl ++ nl
           ++ "Table Statistics:" ++ nl
           ++ "  Total tables: 2" ++ nl
           ++ "  Total rows: 1,215" ++ nl
           ++ "  Data size: 3,162,112 bytes (3.02 MB)" ++ nl
           ++ "  Index size: 1,048,576 bytes (1.00 MB)" ++ nl
           ++ "  Total size: 4,210,688 bytes (4.02 MB)" ++ nl ++ nl
           ++ "Active connections: 3" ++ nl)].
Proof. vm_compute. reflexivity. Qed.

(** An empty schema: the sums are NULL and the report fails on the first
    of them. *)
Example get_database_stats_empty_schema :
  fst (call_tool (steady_driver [[("current_db", DStr "test");
                                  ("version", DStr "8.0.11");
                                  ("table_count", DInt 0);
                                  ("total_rows", DNull)]] 0)
         default_db count_dumps "get_database_stats" (args_of []) world0)
  = Ok [text_content
          "Error: unsupported format string passed to NoneType.__format__"].
Proof. vm_compute. reflexivity. Qed.

(** The catalog promises a count between 1 and 50, 5 when none is given. *)
Example iterations_schema_bounds :
  iterations_property
  = Some {| p_name := "iterations"; p_type := TInteger;
            p_description := "Number of times to run the query";
            p_default := Some (VInt 5);
            p_minimum := Some 1; p_maximum := Some 50 |}.
Proof. reflexivity. Qed.

Example benchmark_two_runs :
  fst (call_tool (steady_driver [] 0) default_db count_dumps "benchmark_query"
         (args_of [("query", VStr "show tables"); ("iterations", VInt 2)]) world0)
  = Ok [text_content
          ("Query Benchmark Results" ++ nl
           ++ "======================" ++ nl ++ nl
           ++ "Query: show tables" ++ nl
           ++ "Iterations: 2" ++ nl ++ nl
           ++ "Average execution time: 45.00 ms" ++ nl
           ++ "Minimum execution time: 33.00 ms" ++ nl
           ++ "Maximum execution time: 57.00 ms" ++ nl ++ nl
           ++ "Individual times: ['33.00', '57.00'] ms" ++ nl)].
Proof. vm_compute. reflexivity. Qed.

(** ** The statement test is a prefix test *)

Lemma startswith1_spec (p s : string) :
  Py.startswith1 s p = true <-> exists rest, s = p ++ rest.
Proof.
  revert s. induction p as [|a p IH]; intros s; simpl.
  - split; [intros _; now exists s | reflexivity].
  - destruct s as [|b s].
    + split; [discriminate | intros [rest H]; discriminate].
    + destruct (Ascii.eqb a b) eqn:E.
      * apply Ascii.eqb_eq in E. subst b. rewrite IH.
        split; intros [rest H]; exists rest; [now rewrite H | now inversion H].
      * apply Ascii.eqb_neq in E.
        split; [discriminate | intros [rest H]; inversion H; congruence].
Qed.

Lemma startswith_spec (s : string) (ps : list string) :
  Py.startswith s ps = true <-> exists p rest, In p ps /\ s = p ++ rest.
Proof.
  unfold Py.startswith. rewrite existsb_exists. split.
  - intros [p [Hin H]]. apply startswith1_spec in H. destruct H as [rest H].
    now exists p, rest.
  - intros [p [rest [Hin H]]]. exists p. split; [assumption|].
    apply startswith1_spec. now exists rest.
Qed.

Lemma is_projection_spec (query : string) :
  is_projection query = true <-> begins_with_keyword query.
Proof. unfold is_projection, begins_with_keyword. apply startswith_spec. Qed.

Lemma is_projection_false (query : string) :
  is_projection query = false <-> ~ begins_with_keyword query.
Proof.
  rewrite <- is_projection_spec. destruct (is_projection query); split;
    congruence.
Qed.

(** ** Computations that leave the connections alone *)

Lemma same_conns_refl w : same_conns w w.
Proof. now split. Qed.

Lemma same_conns_trans w1 w2 w3 :
  same_conns w1 w2 -> same_conns w2 w3 -> same_conns w1 w3.
Proof. unfold same_conns. intros [? ?] [? ?]. split; congruence. Qed.

Lemma stable_ret {A} (a : A) : stable (ret a).
Proof. intros w. apply same_conns_refl. Qed.

Lemma stable_raise {A} (e : Exn) : stable (@raise A e).
Proof. intros w. apply same_conns_refl. Qed.

Lemma stable_lift {A} (r : Result A) : stable (lift r).
Proof. intros w. apply same_conns_refl. Qed.

Lemma stable_bind {A B} (m : M A) (k : A -> M B) :
  stable m -> (forall a, stable (k a)) -> stable (bind m k).
Proof.
  intros Hm Hk w. unfold bind. specialize (Hm w).
  destruct (m w) as [[a|e] w1]; simpl in *.
  - eapply same_conns_trans; [exact Hm | apply Hk].
  - exact Hm.
Qed.

Lemma stable_cursor drv c : stable (connection_cursor drv c).
Proof.
  intros w. unfold connection_cursor.
  destruct (on_cursor drv (trace w)); now split.
Qed.

Lemma stable_execute drv stmt params : stable (cursor_execute drv stmt params).
Proof.
  intros w. unfold cursor_execute.
  destruct (on_execute drv (trace w) stmt params); now split.
Qed.

Lemma stable_fetchall drv : stable (cursor_fetchall drv).
Proof.
  intros w. unfold cursor_fetchall.
  destruct (on_fetchall drv (trace w)); now split.
Qed.

Lemma stable_fetchone drv : stable (cursor_fetchone drv).
Proof.
  intros w. unfold cursor_fetchone.
  destruct (on_fetchone drv (trace w)); now split.
Qed.

Lemma stable_rowcount : stable cursor_rowcount.
Proof. intros w. apply same_conns_refl. Qed.

Lemma stable_commit drv c : stable (connection_commit drv c).
Proof.
  intros w. unfold connection_commit.
  destruct (on_commit drv (trace w)); now split.
Qed.

Lemma stable_time drv : stable (time_time drv).
Proof. intros w. now split. Qed.

Lemma stable_time_if drv b : stable (time_if drv b).
Proof.
  destruct b; simpl; [|apply stable_ret].
  apply stable_bind; [apply stable_time | intros; apply stable_ret].
Qed.

Create HintDb stable.
#[local] Hint Resolve stable_ret stable_raise stable_lift stable_cursor
  stable_execute stable_fetchall stable_fetchone stable_rowcount
  stable_commit stable_time stable_time_if : stable.

(** Walks through a sequence of statements, splitting on every branch. *)
Ltac stable_steps :=
  repeat first
    [ progress auto with stable
    | apply stable_bind; [|intros]
    | match goal with
      | |- stable (if ?b then _ else _) => destruct b
      | |- stable (match ?x with _ => _ end) => destruct x
      end ].

Lemma stable_run_once drv query : stable (run_once drv query).
Proof. unfold run_once. stable_steps. Qed.

Lemma stable_benchmark_runs drv query n :
  forall times, stable (benchmark_runs drv query n times).
Proof.
  induction n as [|n IH]; intros times; simpl.
  - apply stable_ret.
  - pose proof (stable_run_once drv query). stable_steps.
Qed.

Lemma filter_fresh (n : nat) (l : list nat) :
  Forall (fun c => (c < n)%nat) l ->
  List.filter (fun c => negb (Nat.eqb c n)) l = l.
Proof.
  induction 1 as [|c l Hc Hl IH]; simpl.
  - reflexivity.
  - destruct (Nat.eqb_spec c n) as [E|E]; [lia|]. simpl. now rewrite IH.
Qed.

(** The pattern of every tool: open a connection, run a body that leaves the
    connections alone, close the connection whatever the body did. *)
Lemma scoped_connection {A} drv db (body : nat -> M A) w :
  (forall c, stable (body c)) ->
  handles_fresh w ->
  let w' := snd (bind (get_connection drv db)
                   (fun c => try_finally (body c) (connection_close c)) w) in
  open_conns w' = open_conns w /\ handles_fresh w'.
Proof.
  intros Hbody Hw. unfold bind, get_connection, pymysql_connect.
  destruct (on_connect drv (trace w) (connect_args db)); simpl.
  - split; [reflexivity | exact Hw].
  - unfold try_finally.
    match goal with |- context [body ?c ?w1] =>
      specialize (Hbody c w1); destruct (body c w1) as [r w2] end.
    destruct Hbody as [Ho Hn]. simpl in *.
    assert (Hf : List.filter (fun c => negb (Nat.eqb c (next_conn w)))
                   (open_conns w2) = open_conns w).
    { rewrite Ho. simpl. rewrite Nat.eqb_refl. simpl.
      now apply filter_fresh. }
    split; [exact Hf|].
    unfold handles_fresh. simpl. rewrite Hf, Hn.
    eapply Forall_impl; [exact Hw|]. simpl. intros; lia.
Qed.

Section Connections_are_scoped.

Variable drv : Driver.
Variable db : TiDBConnection.
Variable json_dumps : list Row -> string.

(** What is to be shown of the world [w'] that a tool leaves behind. *)
Let scoped (w w' : World) : Prop :=
  open_conns w' = open_conns w /\ handles_fresh w'.

Lemma execute_sql_scoped arguments w :
  handles_fresh w -> scoped w (snd (execute_sql drv db json_dumps arguments w)).
Proof.
  intros Hw. unfold execute_sql. unfold bind at 1, lift.
  destruct (getitem arguments "query") as [query|e]; [|now split].
  apply scoped_connection; [|exact Hw].
  intros c. stable_steps.
Qed.

Lemma get_table_info_scoped arguments w :
  handles_fresh w -> scoped w (snd (get_table_info drv db arguments w)).
Proof.
  intros Hw. unfold get_table_info.
  apply scoped_connection; [|exact Hw].
  intros c. stable_steps.
Qed.

Lemma get_database_stats_scoped arguments w :
  handles_fresh w -> scoped w (snd (get_database_stats drv db arguments w)).
Proof.
  intros Hw. unfold get_database_stats.
  apply scoped_connection; [|exact Hw].
  intros c. stable_steps.
Qed.

Lemma benchmark_query_scoped arguments w :
  handles_fresh w -> scoped w (snd (benchmark_query drv db arguments w)).
Proof.
  intros Hw. unfold benchmark_query. unfold bind at 1, lift.
  destruct (getitem arguments "query") as [query|e]; [|now split].
  unfold bind at 1.
  destruct (cap_iterations _) as [iterations|e]; [|now split].
  apply scoped_connection; [|exact Hw].
  intros c.
  pose proof (stable_run_once drv query).
  pose proof (stable_benchmark_runs drv query).
  stable_steps.
Qed.

(** C3. Whatever the tool, its arguments and the answers of the database
    (exceptions at connect, cursor creation, execute, fetch or commit
    included), the handles that are open when [call_tool] returns are the
    handles that were open when it was called: the connection that the
    invocation opened has been closed. *)
Theorem call_tool_closes_connection name arguments w :
  handles_fresh w ->
  open_conns (snd (call_tool drv db json_dumps name arguments w)) = open_conns w
  /\ handles_fresh (snd (call_tool drv db json_dumps name arguments w)).
Proof.
  intros Hw. unfold call_tool, try_except.
  assert (Hbody : scoped w (snd (
    (if String.eqb name "execute_sql" then execute_sql drv db json_dumps arguments
     else if String.eqb name "get_table_info" then get_table_info drv db arguments
     else if String.eqb name "get_database_stats"
          then get_database_stats drv db arguments
     else if String.eqb name "benchmark_query"
          then benchmark_query drv db arguments
     else ret [text_content ("Unknown tool: " ++ name)]) w))).
  { destruct (String.eqb name "execute_sql");
      [now apply execute_sql_scoped|].
    destruct (String.eqb name "get_table_info");
      [now apply get_table_info_scoped|].
    destruct (String.eqb name "get_database_stats");
      [now apply get_database_stats_scoped|].
    destruct (String.eqb name "benchmark_query");
      [now apply benchmark_query_scoped|].
    now split. }
  match type of Hbody with scoped _ (snd ?run) =>
    destruct run as [[out|e] w'] end; exact Hbody.
Qed.

End Connections_are_scoped.

Lemma call_tool_closes_connection_witness :
  handles_fresh world0 /\
  open_conns (snd (call_tool failing_driver default_db count_dumps "execute_sql"
                     (args_of [("query", VStr "select 1")]) world0)) = [].
Proof.
  split; [constructor|].
  apply (call_tool_closes_connection failing_driver default_db count_dumps
           "execute_sql" (args_of [("query", VStr "select 1")]) world0).
  constructor.
Defined.

(** ** The dispatcher *)

Section Dispatcher.

Variable drv : Driver.
Variable db : TiDBConnection.
Variable json_dumps : list Row -> string.

Lemma tool_names_eq :
  tool_names = ["execute_sql"; "get_table_info"; "get_database_stats";
                "benchmark_query"].
Proof. reflexivity. Qed.

(** [call_tool] itself never raises. *)
Lemma call_tool_returns name arguments w :
  exists out w', call_tool drv db json_dumps name arguments w = (Ok out, w').
Proof.
  unfold call_tool, try_except.
  match goal with |- context [match ?run with _ => _ end] =>
    destruct run as [[out|e] w'] end.
  - now exists out, w'.
  - now eexists _, _.
Qed.

(** C5. For each of the four tools: when servicing the invocation raises
    an exception [e] and leaves the world [w'], [call_tool] returns the
    single text ["Error: " ++ str(e)] and leaves the same world [w'], so
    nothing was run a second time; and [call_tool] returns a result, never
    an exception, whatever the tool does. *)
Theorem call_tool_reports_exception arguments w e w' :
  let report := (Ok [text_content ("Error: " ++ str_exn e)], w') in
  (execute_sql drv db json_dumps arguments w = (Raise e, w') ->
   call_tool drv db json_dumps "execute_sql" arguments w = report) /\
  (get_table_info drv db arguments w = (Raise e, w') ->
   call_tool drv db json_dumps "get_table_info" arguments w = report) /\
  (get_database_stats drv db arguments w = (Raise e, w') ->
   call_tool drv db json_dumps "get_database_stats" arguments w = report) /\
  (benchmark_query drv db arguments w = (Raise e, w') ->
   call_tool drv db json_dumps "benchmark_query" arguments w = report) /\
  (forall name, exists out w'',
      call_tool drv db json_dumps name arguments w = (Ok out, w'')).
Proof.
  intros report.
  repeat split;
    try (intros H; unfold call_tool, try_except; simpl; rewrite H;
         reflexivity).
  intros name. apply call_tool_returns.
Qed.

(** C6. A name outside the catalog gets the text ["Unknown tool: " ++ name]
    and the world is left as it was: no connection is opened and no call
    reaches the database. *)
Theorem call_tool_unknown_tool name arguments w :
  ~ In name tool_names ->
  call_tool drv db json_dumps name arguments w
  = (Ok [text_content ("Unknown tool: " ++ name)], w).
Proof.
  rewrite tool_names_eq. intros Hname.
  assert (Hne : forall n, In n ["execute_sql"; "get_table_info";
                                "get_database_stats"; "benchmark_query"] ->
                          name <> n)
    by (intros n Hn E; subst n; exact (Hname Hn)).
  unfold call_tool, try_except.
  destruct (String.eqb_spec name "execute_sql") as [E|_];
    [exfalso; revert E; apply Hne; simpl; auto|].
  destruct (String.eqb_spec name "get_table_info") as [E|_];
    [exfalso; revert E; apply Hne; simpl; auto|].
  destruct (String.eqb_spec name "get_database_stats") as [E|_];
    [exfalso; revert E; apply Hne; simpl; auto|].
  destruct (String.eqb_spec name "benchmark_query") as [E|_];
    [exfalso; revert E; apply Hne; simpl; auto 6|].
  reflexivity.
Qed.

End Dispatcher.

Lemma call_tool_reports_exception_witness :
  call_tool refusing_driver default_db count_dumps "execute_sql"
    (args_of [("query", VStr "select 1")]) world0
  = (Ok [text_content "Error: (2003, 'connection refused')"],
     log (EvConnect (connect_args default_db)) world0).
Proof.
  apply (proj1 (call_tool_reports_exception refusing_driver default_db
                  count_dumps (args_of [("query", VStr "select 1")]) world0
                  (DatabaseError "(2003, 'connection refused')")
                  (log (EvConnect (connect_args default_db)) world0))).
  vm_compute. reflexivity.
Defined.

Lemma call_tool_unknown_tool_witness :
  ~ In "drop_database" tool_names /\
  call_tool (steady_driver [] 0) default_db count_dumps "drop_database"
    (args_of []) world0
  = (Ok [text_content "Unknown tool: drop_database"], world0).
Proof.
  assert (H : ~ In "drop_database" tool_names).
  { rewrite tool_names_eq. simpl. intros H.
    repeat (destruct H as [H|H]; [discriminate H|]). exact H. }
  split; [exact H|].
  apply (call_tool_unknown_tool (steady_driver [] 0) default_db count_dumps
           "drop_database" (args_of []) world0 H).
Defined.

(** Two kinds of failure named by the specification, run on the model: a
    missing argument, and a statement that the database rejects. *)
Example missing_query_reported :
  call_tool (steady_driver [] 0) default_db count_dumps "benchmark_query"
    (args_of [("iterations", VInt 3)]) world0
  = (Ok [text_content "Error: 'query'"], world0).
Proof. vm_compute. reflexivity. Qed.

Example rejected_statement_reported :
  fst (call_tool failing_driver default_db count_dumps "execute_sql"
         (args_of [("query", VStr "selec 1")]) world0)
  = Ok [text_content "Error: (1064, 'syntax error')"].
Proof. vm_compute. reflexivity. Qed.

(** ** The connection provisioner *)

(** Against C2 as stated: the host 127.0.0.1, a loopback address, is asked
    to speak TLS. *)
Lemma tls_requested_for_127_0_0_1 :
  spec_loopback_host "127.0.0.1" = true /\
  ca_ssl (connect_args (db_at "127.0.0.1")) = Some [("ssl", true)].
Proof. split; reflexivity. Qed.

(** C2, as the code has it. TLS is left out exactly when the configured host
    is the literal name [localhost]; every other host, loopback addresses
    such as 127.0.0.1 included, is asked for TLS; and these are the
    arguments with which [get_connection] calls the driver. *)
Theorem tls_requested_unless_localhost (self : TiDBConnection) :
  (ca_ssl (connect_args self) = None <-> host self = "localhost") /\
  (ca_ssl (connect_args self) = Some [("ssl", true)]
   <-> host self <> "localhost") /\
  (forall drv w,
      trace (snd (get_connection drv self w))
      = (trace w ++ [EvConnect (connect_args self)])%list).
Proof.
  split; [|split].
  - unfold connect_args; simpl.
    destruct (String.eqb_spec (host self) "localhost"); simpl;
      split; congruence.
  - unfold connect_args; simpl.
    destruct (String.eqb_spec (host self) "localhost"); simpl;
      split; congruence.
  - intros drv w. unfold get_connection, pymysql_connect.
    destruct (on_connect drv (trace w) _); reflexivity.
Qed.

(** ** Running the tools against given answers of the database *)

Lemma string_app_assoc (a b c : string) : (a ++ b) ++ c = a ++ b ++ c.
Proof.
  induction a as [|x a IH]; [reflexivity|].
  change (String x ((a ++ b) ++ c) = String x (a ++ b ++ c)). now f_equal.
Qed.

(** Unfolds the sequencing and the driver calls, leaving the answers of the
    database to be filled in. *)
Ltac unfold_calls :=
  cbv beta iota delta [bind try_finally try_except get_connection
    pymysql_connect connection_cursor time_if cursor_execute lift
    value_is_projection cursor_fetchall cursor_fetchone connection_commit
    cursor_rowcount connection_close ret raise rbind time_time log
    execution_time_line elapsed_ms getitem].

Ltac tidy :=
  cbn [trace open_conns next_conn rowcount fst snd];
  rewrite <- ?app_assoc; cbn [app].

Ltac tidy_in H :=
  cbn [trace open_conns next_conn rowcount fst snd] in H;
  rewrite <- ?app_assoc in H; cbn [app] in H.

Ltac tidy_all :=
  cbn [trace open_conns next_conn rowcount fst snd] in *;
  rewrite <- ?app_assoc in *; cbn [app] in *.

(** Fills in the answer [H] of the database to the next call. *)
Ltac answer H := tidy; rewrite H.

Ltac unfold_histories :=
  unfold timing_line, timed_at, executed_at, started_at, opened_at,
    connected_at, execute_sql_events, clock_events, rows_report,
    affected_report, rows_body in *.

Section Execute_sql.

Variable drv : Driver.
Variable db : TiDBConnection.
Variable json_dumps : list Row -> string.

(** The run of [execute_sql] on a statement that passes the prefix test,
    when the database answers every call. *)
Lemma execute_sql_projection_run arguments w query n rows :
  arguments !! "query" = Some (VStr query) ->
  is_projection query = true ->
  let mt := measure_time_of arguments in
  on_connect drv (trace w) (connect_args db) = None ->
  on_cursor drv (connected_at db w) = None ->
  on_execute drv (started_at db w mt) (VStr query) [] = inr n ->
  on_fetchall drv (timed_at db w mt query) = inr rows ->
  let result := execute_sql drv db json_dumps arguments w in
  fst result
  = Ok [text_content (rows_report (timing_line drv db w mt query)
                        (List.length rows) (rows_body json_dumps rows))]
  /\ trace (snd result)
     = (trace w ++ execute_sql_events db (next_conn w) mt query EvFetchall)%list.
Proof.
  intros Hquery Hp mt Hconnect Hcursor Hexecute Hfetch result.
  subst result. unfold execute_sql.
  fold (measure_time_of arguments). fold mt.
  unfold_histories. unfold_calls. rewrite Hquery.
  destruct mt; tidy_in Hcursor; tidy_in Hexecute; tidy_in Hfetch.
  - answer Hconnect. answer Hcursor. answer Hexecute. rewrite Hp.
    answer Hfetch. tidy. rewrite !string_app_assoc. split; reflexivity.
  - answer Hconnect. answer Hcursor. answer Hexecute. rewrite Hp.
    answer Hfetch. tidy. rewrite !string_app_assoc. split; reflexivity.
Qed.

(** The same for a statement that fails the prefix test. *)
Lemma execute_sql_mutation_run arguments w query n :
  arguments !! "query" = Some (VStr query) ->
  is_projection query = false ->
  let mt := measure_time_of arguments in
  on_connect drv (trace w) (connect_args db) = None ->
  on_cursor drv (connected_at db w) = None ->
  on_execute drv (started_at db w mt) (VStr query) [] = inr n ->
  on_commit drv (timed_at db w mt query) = None ->
  let result := execute_sql drv db json_dumps arguments w in
  fst result
  = Ok [text_content (affected_report (timing_line drv db w mt query) n)]
  /\ trace (snd result)
     = (trace w ++ execute_sql_events db (next_conn w) mt query
                     (EvCommit (next_conn w)))%list.
Proof.
  intros Hquery Hp mt Hconnect Hcursor Hexecute Hcommit result.
  subst result. unfold execute_sql.
  fold (measure_time_of arguments). fold mt.
  unfold_histories. unfold_calls. rewrite Hquery.
  destruct mt; tidy_in Hcursor; tidy_in Hexecute; tidy_in Hcommit.
  - answer Hconnect. answer Hcursor. answer Hexecute. rewrite Hp.
    answer Hcommit. tidy. rewrite !string_app_assoc. split; reflexivity.
  - answer Hconnect. answer Hcursor. answer Hexecute. rewrite Hp.
    answer Hcommit. tidy. rewrite !string_app_assoc. split; reflexivity.
Qed.

End Execute_sql.

(** Splits on the answer of the database to the next call in [H]. *)
Ltac case_answer H :=
  match type of H with
  | context [on_connect ?d ?t ?a] => destruct (on_connect d t a) eqn:?
  | context [on_cursor ?d ?t] => destruct (on_cursor d t) eqn:?
  | context [on_execute ?d ?t ?s ?p] => destruct (on_execute d t s p) eqn:?
  | context [on_fetchall ?d ?t] => destruct (on_fetchall d t) eqn:?
  | context [on_fetchone ?d ?t] => destruct (on_fetchone d t) eqn:?
  | context [on_commit ?d ?t] => destruct (on_commit d t) eqn:?
  end;
  cbv beta iota in H; tidy_in H; try discriminate H.

Section Execute_sql_returns.

Variable drv : Driver.
Variable db : TiDBConnection.
Variable json_dumps : list Row -> string.

(** When [execute_sql] returns a result, the statement was a string and
    the database answered every call. *)
Lemma execute_sql_ok arguments w out w' :
  execute_sql drv db json_dumps arguments w = (Ok out, w') ->
  exists query n,
    arguments !! "query" = Some (VStr query) /\
    let mt := measure_time_of arguments in
    on_connect drv (trace w) (connect_args db) = None /\
    on_cursor drv (connected_at db w) = None /\
    on_execute drv (started_at db w mt) (VStr query) [] = inr n /\
    if is_projection query
    then exists rows, on_fetchall drv (timed_at db w mt query) = inr rows
    else on_commit drv (timed_at db w mt query) = None.
Proof.
  unfold execute_sql. fold (measure_time_of arguments).
  unfold_histories. unfold_calls.
  destruct (arguments !! "query") as [query|]; [|discriminate].
  destruct (measure_time_of arguments); intros H;
    cbv beta iota in H; tidy_in H.
  - case_answer H. case_answer H. case_answer H.
    destruct query as [| | |query]; try discriminate H.
    exists query, z. cbv beta iota in H.
    destruct (is_projection query); cbv beta iota in H; case_answer H;
      repeat split; tidy_all; try assumption; eauto.
  - case_answer H. case_answer H. case_answer H.
    destruct query as [| | |query]; try discriminate H.
    exists query, z. cbv beta iota in H.
    destruct (is_projection query); cbv beta iota in H; case_answer H;
      repeat split; tidy_all; try assumption; eauto.
Qed.
End Execute_sql_returns.

Section Execute_sql_reports.

Variable drv : Driver.
Variable db : TiDBConnection.
Variable json_dumps : list Row -> string.

(** Every result of [execute_sql] on a statement that passes the prefix
    test is the report of the rows that the one [fetchall] returned. *)
Lemma execute_sql_ok_projection arguments w query out :
  arguments !! "query" = Some (VStr query) ->
  is_projection query = true ->
  fst (execute_sql drv db json_dumps arguments w) = Ok out ->
  let mt := measure_time_of arguments in
  exists rows,
    on_fetchall drv (timed_at db w mt query) = inr rows /\
    out = [text_content (rows_report (timing_line drv db w mt query)
                           (List.length rows) (rows_body json_dumps rows))] /\
    trace (snd (execute_sql drv db json_dumps arguments w))
    = (trace w ++ execute_sql_events db (next_conn w) mt query EvFetchall)%list.
Proof.
  intros Hquery Hp Hout mt.
  destruct (execute_sql drv db json_dumps arguments w) as [r w'] eqn:Hrun.
  simpl in Hout. subst r.
  destruct (execute_sql_ok drv db json_dumps _ _ _ _ Hrun)
    as [q [n [Hq [Hconnect [Hcursor [Hexecute Hlast]]]]]].
  rewrite Hquery in Hq. injection Hq as <-. rewrite Hp in Hlast.
  destruct Hlast as [rows Hfetch]. exists rows.
  destruct (execute_sql_projection_run drv db json_dumps arguments w query
              n rows Hquery Hp Hconnect Hcursor Hexecute Hfetch) as [Hfst Hsnd].
  rewrite Hrun in Hfst, Hsnd. simpl in Hfst, Hsnd.
  split; [exact Hfetch|]. subst mt.
  split; [now injection Hfst | exact Hsnd].
Qed.

(** Every result of [execute_sql] on a statement that fails the prefix
    test is the report of the row count of the cursor, after a commit. *)
Lemma execute_sql_ok_mutation arguments w query out :
  arguments !! "query" = Some (VStr query) ->
  is_projection query = false ->
  fst (execute_sql drv db json_dumps arguments w) = Ok out ->
  let mt := measure_time_of arguments in
  exists n,
    on_execute drv (started_at db w mt) (VStr query) [] = inr n /\
    out = [text_content (affected_report (timing_line drv db w mt query) n)] /\
    trace (snd (execute_sql drv db json_dumps arguments w))
    = (trace w ++ execute_sql_events db (next_conn w) mt query
                    (EvCommit (next_conn w)))%list.
Proof.
  intros Hquery Hp Hout mt.
  destruct (execute_sql drv db json_dumps arguments w) as [r w'] eqn:Hrun.
  simpl in Hout. subst r.
  destruct (execute_sql_ok drv db json_dumps _ _ _ _ Hrun)
    as [q [n [Hq [Hconnect [Hcursor [Hexecute Hlast]]]]]].
  rewrite Hquery in Hq. injection Hq as <-. rewrite Hp in Hlast.
  exists n.
  destruct (execute_sql_mutation_run drv db json_dumps arguments w query
              n Hquery Hp Hconnect Hcursor Hexecute Hlast) as [Hfst Hsnd].
  rewrite Hrun in Hfst, Hsnd. simpl in Hfst, Hsnd.
  split; [exact Hexecute|]. subst mt.
  split; [now injection Hfst | exact Hsnd].
Qed.

(** C8. For a statement that passes the prefix test: when the database
    answers the calls, [execute_sql] fetches the rows once, in full, and
    returns the report with the line [Rows returned: n], [n] being the
    number of fetched rows, followed by the serialized rows; every result
    that [execute_sql] returns has this shape; and for no rows the body is
    the literal [No rows returned.]. *)
Theorem execute_sql_projection_report arguments w query :
  arguments !! "query" = Some (VStr query) ->
  is_projection query = true ->
  let mt := measure_time_of arguments in
  let result := execute_sql drv db json_dumps arguments w in
  let report rows :=
    [text_content (rows_report (timing_line drv db w mt query)
                     (List.length rows) (rows_body json_dumps rows))] in
  (forall n rows,
      on_connect drv (trace w) (connect_args db) = None ->
      on_cursor drv (connected_at db w) = None ->
      on_execute drv (started_at db w mt) (VStr query) [] = inr n ->
      on_fetchall drv (timed_at db w mt query) = inr rows ->
      fst result = Ok (report rows) /\
      trace (snd result)
      = (trace w ++ execute_sql_events db (next_conn w) mt query EvFetchall)%list)
  /\ (forall out,
         fst result = Ok out ->
         exists rows,
           on_fetchall drv (timed_at db w mt query) = inr rows /\
           out = report rows)
  /\ rows_report (timing_line drv db w mt query) 0 (rows_body json_dumps [])
     = "Query executed successfully." ++ nl ++ timing_line drv db w mt query
       ++ "Rows returned: 0" ++ nl ++ nl ++ "No rows returned.".
Proof.
  intros Hquery Hp mt result report. split; [|split].
  - intros n rows Hconnect Hcursor Hexecute Hfetch.
    now apply (execute_sql_projection_run drv db json_dumps arguments w
                 query n rows).
  - intros out Hout.
    destruct (execute_sql_ok_projection arguments w query out Hquery Hp Hout)
      as [rows [Hfetch [Hrep _]]].
    now exists rows.
  - reflexivity.
Qed.

End Execute_sql_reports.

Lemma execute_sql_projection_report_witness :
  fst (execute_sql (steady_driver [] 0) default_db count_dumps
         (args_of [("query", VStr "SELECT * FROM empty_table")]) world0)
  = Ok [text_content ("Query executed successfully." ++ nl
                      ++ "Rows returned: 0" ++ nl ++ nl ++ "No rows returned.")].
Proof.
  refine (proj1 (proj1 (execute_sql_projection_report (steady_driver [] 0)
                   default_db count_dumps
                   (args_of [("query", VStr "SELECT * FROM empty_table")])
                   world0 "SELECT * FROM empty_table" _ _) 0 [] _ _ _ _));
    reflexivity.
Defined.

(** ** The statement classifier *)

(** C4. A statement whose trimmed, upper-cased text begins with SELECT,
    SHOW, DESCRIBE or EXPLAIN passes the test, and every other statement
    fails it; and whenever [execute_sql] returns a result, the result is the
    report of a row set in the first case and the report of an affected-row
    count in the second. *)
Theorem statement_classification (query : string) :
  (begins_with_keyword query -> is_projection query = true) /\
  (~ begins_with_keyword query -> is_projection query = false) /\
  (forall drv db json_dumps arguments w out,
      arguments !! "query" = Some (VStr query) ->
      fst (execute_sql drv db json_dumps arguments w) = Ok out ->
      (begins_with_keyword query ->
       exists timing rows,
         out = [text_content (rows_report timing (List.length rows)
                                (rows_body json_dumps rows))]) /\
      (~ begins_with_keyword query ->
       exists timing affected,
         out = [text_content (affected_report timing affected)])).
Proof.
  split; [apply is_projection_spec|]. split; [apply is_projection_false|].
  intros drv db json_dumps arguments w out Hquery Hout. split; intros Hkw.
  - apply is_projection_spec in Hkw.
    destruct (execute_sql_ok_projection drv db json_dumps arguments w query
                out Hquery Hkw Hout) as [rows [_ [Hrep _]]].
    eauto.
  - apply is_projection_false in Hkw.
    destruct (execute_sql_ok_mutation drv db json_dumps arguments w query
                out Hquery Hkw Hout) as [n [_ [Hrep _]]].
    eauto.
Qed.

Lemma statement_classification_witness :
  is_projection "   explain select 1" = true /\
  is_projection "/* note */ select 1" = false.
Proof.
  split.
  - apply (proj1 (statement_classification "   explain select 1")).
    exists "EXPLAIN", " SELECT 1". split; [simpl; auto | reflexivity].
  - apply (proj1 (proj2 (statement_classification "/* note */ select 1"))).
    intros [kw [rest [Hkw H]]]. simpl in Hkw.
    repeat (destruct Hkw as [<-|Hkw]; [discriminate H|]). exact Hkw.
Defined.

(** C10. The test looks at characters only: whatever follows the keyword,
    be it more letters of the same word, a statement whose trimmed,
    upper-cased text starts with the characters of a keyword passes the
    test; [execute_sql] then fetches its rows instead of committing, and so
    does every run of [benchmark_query]. *)
Theorem prefix_test_has_no_word_boundary (query kw rest : string) :
  In kw projection_keywords ->
  Py.upper (Py.strip query) = kw ++ rest ->
  is_projection query = true /\
  (forall drv db json_dumps arguments w out,
      arguments !! "query" = Some (VStr query) ->
      fst (execute_sql drv db json_dumps arguments w) = Ok out ->
      trace (snd (execute_sql drv db json_dumps arguments w))
      = (trace w ++ execute_sql_events db (next_conn w)
                      (measure_time_of arguments) query EvFetchall)%list) /\
  (forall drv w n,
      on_execute drv (trace w) (VStr query) [] = inr n ->
      trace (snd (run_once drv (VStr query) w))
      = (trace w ++ [EvExecute (VStr query) []; EvFetchall])%list).
Proof.
  intros Hkw Hprefix.
  assert (Hp : is_projection query = true).
  { apply is_projection_spec. now exists kw, rest. }
  split; [exact Hp|]. split.
  - intros drv db json_dumps arguments w out Hquery Hout.
    destruct (execute_sql_ok_projection drv db json_dumps arguments w query
                out Hquery Hp Hout) as [rows [_ [_ Htrace]]].
    exact Htrace.
  - intros drv w n Hexecute. unfold run_once. unfold_calls.
    answer Hexecute. rewrite Hp.
    tidy. destruct (on_fetchall drv _); tidy; reflexivity.
Qed.

Lemma prefix_test_has_no_word_boundary_witness :
  is_projection "  shower_log set seen = 1  " = true.
Proof.
  apply (proj1 (prefix_test_has_no_word_boundary
                  "  shower_log set seen = 1  " "SHOW" "ER_LOG SET SEEN = 1"
                  ltac:(simpl; auto) eq_refl)).
Defined.

Example selection_is_a_projection :
  is_projection "SELECTION 1" = true /\ is_projection "SHOWER now" = true /\
  is_projection "describes" = true /\ is_projection "explained" = true /\
  is_projection "insert into t select 1" = false.
Proof. repeat split. Qed.

(** A statement that is no query but passes the test is fetched, not
    committed. *)
Example selection_is_fetched :
  trace (snd (execute_sql (steady_driver [] 1) default_db count_dumps
                (args_of [("query", VStr "SELECTION 1")]) world0))
  = [EvConnect (connect_args default_db); EvCursor 0;
     EvExecute (VStr "SELECTION 1") []; EvFetchall; EvClose 0].
Proof. vm_compute. reflexivity. Qed.

(** ** [get_table_info] *)







Section Get_table_info.

Variable drv : Driver.
Variable db : TiDBConnection.


End Get_table_info.


(** No tables: the same text for one table asked for and for all. *)
Example get_table_info_no_tables :
  fst (get_table_info (steady_driver [] 0) default_db
         (args_of [("table_name", VStr "missing")]) world0)
  = Ok [text_content "No tables found."] /\
  fst (get_table_info (steady_driver [] 0) default_db (args_of []) world0)
  = Ok [text_content "No tables found."].
Proof. split; vm_compute; reflexivity. Qed.

Example get_table_info_all_tables_events :
  trace (snd (get_table_info (steady_driver two_tables 0) default_db
                (args_of []) world0))
  = [EvConnect (connect_args default_db); EvCursor 0;
     EvExecute (VStr all_tables_sql) [VStr "test"]; EvFetchall; EvClose 0].
Proof. vm_compute. reflexivity. Qed.

(** ** [benchmark_query] *)

(** *** The order of floats

    [<] on floats is a strict order in which a NaN compares with nothing. *)

Ltac compare_cases :=
  repeat match goal with
    | |- context [Z.compare ?x ?y] => destruct (Z.compare_spec x y)
    | |- context [Pos.compare_cont Eq ?x ?y] =>
        change (Pos.compare_cont Eq x y) with (Pos.compare x y);
        destruct (Pos.compare_spec x y)
    end.

Ltac float_cases a :=
  destruct a as [[|]|[|]| |[|] ? ?].

Lemma flt_nan_r (x : Py.float) : Py.flt x S754_nan = false.
Proof. now destruct x. Qed.

Lemma nan_or_not (x : Py.float) : x = S754_nan \/ x <> S754_nan.
Proof. destruct x; [right | right | left | right]; congruence. Qed.

Lemma flt_irrefl (x : Py.float) : Py.flt x x = false.
Proof.
  float_cases x; try reflexivity; unfold Py.flt, SFltb, SFcompare;
    compare_cases; simpl; try reflexivity; lia.
Qed.

Lemma flt_trans (a b c : Py.float) :
  Py.flt a b = true -> Py.flt b c = true -> Py.flt a c = true.
Proof.
  unfold Py.flt, SFltb, SFcompare.
  float_cases a; float_cases b; try (intros; discriminate);
    float_cases c; try (intros; discriminate); try reflexivity;
    compare_cases; simpl; intros; try discriminate; try reflexivity; lia.
Qed.

Lemma flt_neg_trans (a b c : Py.float) :
  b <> S754_nan ->
  Py.flt a b = false -> Py.flt b c = false -> Py.flt a c = false.
Proof.
  unfold Py.flt, SFltb, SFcompare. intros Hb.
  float_cases a; float_cases b; try congruence; try (intros; discriminate);
    float_cases c; try (intros; discriminate); try reflexivity;
    compare_cases; simpl; intros; try discriminate; try reflexivity; lia.
Qed.

(** [min] and [max] return an element, and one that no element is below
    (above). *)
Lemma min_from_In (l : list Py.float) :
  forall x, In (Py.min_from x l) (x :: l).
Proof.
  induction l as [|y l IH]; intros x; [now left|].
  change (Py.min_from x (y :: l))
    with (Py.min_from (if Py.flt y x then y else x) l).
  destruct (IH (if Py.flt y x then y else x)) as [H|H].
  - destruct (Py.flt y x); rewrite <- H; [right; now left | now left].
  - right. now right.
Qed.

Lemma max_from_In (l : list Py.float) :
  forall x, In (Py.max_from x l) (x :: l).
Proof.
  induction l as [|y l IH]; intros x; [now left|].
  change (Py.max_from x (y :: l))
    with (Py.max_from (if Py.flt x y then y else x) l).
  destruct (IH (if Py.flt x y then y else x)) as [H|H].
  - destruct (Py.flt x y); rewrite <- H; [right; now left | now left].
  - right. now right.
Qed.

Lemma min_from_nan (l : list Py.float) : Py.min_from S754_nan l = S754_nan.
Proof.
  induction l as [|y l IH]; [reflexivity|].
  change (Py.min_from S754_nan (y :: l))
    with (Py.min_from (if Py.flt y S754_nan then y else S754_nan) l).
  now rewrite flt_nan_r.
Qed.

Lemma max_from_nan (l : list Py.float) : Py.max_from S754_nan l = S754_nan.
Proof.
  induction l as [|y l IH]; [reflexivity|]. exact IH.
Qed.

Lemma min_from_none_below (l : list Py.float) :
  forall x, none_below (Py.min_from x l) (x :: l).
Proof.
  induction l as [|y l IH]; intros x.
  - constructor; [apply flt_irrefl | constructor].
  - change (Py.min_from x (y :: l))
      with (Py.min_from (if Py.flt y x then y else x) l).
    specialize (IH (if Py.flt y x then y else x)).
    destruct (Py.flt y x) eqn:Hyx; inversion IH as [|? ? Hhead Htail]; subst.
    + constructor; [|constructor; assumption].
      destruct (Py.flt x (Py.min_from y l)) eqn:Hx; [|reflexivity].
      now rewrite (flt_trans _ _ _ Hyx Hx) in Hhead.
    + constructor; [assumption|]. constructor; [|assumption].
      destruct (nan_or_not x) as [->|Hx];
        [rewrite min_from_nan; apply flt_nan_r
        | exact (flt_neg_trans _ _ _ Hx Hyx Hhead)].
Qed.

Lemma max_from_none_above (l : list Py.float) :
  forall x, none_above (Py.max_from x l) (x :: l).
Proof.
  induction l as [|y l IH]; intros x.
  - constructor; [apply flt_irrefl | constructor].
  - change (Py.max_from x (y :: l))
      with (Py.max_from (if Py.flt x y then y else x) l).
    specialize (IH (if Py.flt x y then y else x)).
    destruct (Py.flt x y) eqn:Hxy; inversion IH as [|? ? Hhead Htail]; subst.
    + constructor; [|constructor; assumption].
      destruct (Py.flt (Py.max_from y l) x) eqn:Hx; [|reflexivity].
      now rewrite (flt_trans _ _ _ Hx Hxy) in Hhead.
    + constructor; [assumption|]. constructor; [|assumption].
      destruct (nan_or_not x) as [->|Hx];
        [now rewrite max_from_nan
        | exact (flt_neg_trans _ _ _ Hx Hhead Hxy)].
Qed.

(** The statistics of a non-empty list of times. *)
Lemma statistics_of_times (times : list Py.float) :
  times <> [] ->
  exists min_time max_time,
    average times
    = Ok (Py.fdiv (Py.sum times)
            (Py.float_of_int (Z.of_nat (List.length times)))) /\
    minimum times = Ok min_time /\ maximum times = Ok max_time /\
    In min_time times /\ none_below min_time times /\
    In max_time times /\ none_above max_time times.
Proof.
  destruct times as [|t ts]; [congruence|]. intros _.
  exists (Py.min_from t ts), (Py.max_from t ts).
  split; [reflexivity|]. split; [reflexivity|]. split; [reflexivity|].
  split; [apply min_from_In|]. split; [apply min_from_none_below|].
  split; [apply max_from_In | apply max_from_none_above].
Qed.

Lemma clock_times_length drv query n :
  forall h, List.length (clock_times drv query h n) = n.
Proof.
  induction n as [|n IH]; intros h; [reflexivity|].
  simpl. now rewrite IH.
Qed.

Section Benchmark_runs.
Variable drv : Driver.
Variable db : TiDBConnection.
Hypothesis Hdrv : answers_all drv.

(** One run against a database that answers: the statement is executed
    and, if it passes the prefix test, its rows are fetched. *)
Lemma run_once_answered query w :
  exists w',
    run_once drv (VStr query) w = (Ok tt, w') /\
    trace w' = (trace w ++ run_events query)%list /\
    same_conns w w'.
Proof.
  destruct Hdrv as [_ [_ [Hexecute [Hfetch _]]]].
  destruct (Hexecute (trace w) (VStr query) []) as [n Hn].
  unfold run_once, run_events. unfold_calls. answer Hn.
  destruct (is_projection query).
  - match goal with |- context [on_fetchall drv ?t] =>
      destruct (Hfetch t) as [rows Hrows]; rewrite Hrows end.
    eexists. split; [reflexivity|]. tidy. now split.
  - eexists. split; [reflexivity|]. tidy. now split.
Qed.

(** The loop makes [n] timed runs and adds their [n] times, each computed
    from the two readings of the clock around the run. *)
Lemma benchmark_runs_answered query n :
  forall times w,
  exists w',
    benchmark_runs drv (VStr query) n times w
    = (Ok (times ++ clock_times drv query (trace w) n)%list, w') /\
    trace w' = (trace w ++ repeat_events n (timed_run_events query))%list /\
    same_conns w w'.
Proof.
  induction n as [|n IH]; intros times w.
  - exists w. simpl. rewrite !app_nil_r. repeat split; reflexivity.
  - cbn [benchmark_runs]. unfold bind at 1. unfold time_time at 1.
    unfold bind at 1.
    destruct (run_once_answered query (log EvTime w)) as [w1 [Hrun [Ht1 Hc1]]].
    rewrite Hrun. unfold bind at 1. unfold time_time at 1.
    match goal with |- context [benchmark_runs drv _ n ?ts ?w2] =>
      destruct (IH ts w2) as [w' [Hruns [Ht Hc]]] end.
    exists w'. rewrite Hruns.
    assert (Hran : trace w1 = (trace w ++ [EvTime] ++ run_events query)%list).
    { rewrite Ht1. unfold log. tidy. reflexivity. }
    split; [|split].
    + rewrite <- app_assoc. cbn [clock_times]. unfold log at 1. cbn [trace].
      now rewrite Hran.
    + rewrite Ht. unfold log. tidy. rewrite Ht1. unfold log. tidy.
      unfold timed_run_events. simpl. now rewrite <- !app_assoc.
    + eapply same_conns_trans; [|exact Hc].
      eapply same_conns_trans; [|split; reflexivity].
      eapply same_conns_trans; [|exact Hc1]. now split.
Qed.

(** The cap: an integer above 50 becomes 50, any other integer is kept. *)
Lemma cap_iterations_int z :
  cap_iterations (VInt z) = Ok (VInt (Z.min z 50)).
Proof.
  unfold cap_iterations, gt_50, rbind.
  destruct (Z.ltb_spec 50 z); f_equal; f_equal; lia.
Qed.

(** The run of [benchmark_query] for an integer count [z]: the warm-up,
    then as many timed runs as [range(min(z, 50))] has elements, and the
    report of their times. *)
Lemma benchmark_query_run arguments w query z :
  arguments !! "query" = Some (VStr query) ->
  get_default arguments "iterations" (VInt 5) = VInt z ->
  let n := Z.to_nat (Z.min z 50) in
  let times := clock_times drv query (opened_at db w ++ run_events query) n in
  let result := benchmark_query drv db arguments w in
  fst result
  = (avg_time <~ average times ;;
     min_time <~ minimum times ;;
     max_time <~ maximum times ;;
     Ok [text_content (benchmark_report query (Z.min z 50)
                         avg_time min_time max_time times)]) /\
  trace (snd result)
  = (opened_at db w ++ run_events query
     ++ repeat_events n (timed_run_events query)
     ++ [EvClose (next_conn w)])%list.
Proof.
  intros Hquery Hiter n times result.
  assert (Hrun : exists w',
    result
    = ((avg_time <~ average times ;;
        min_time <~ minimum times ;;
        max_time <~ maximum times ;;
        Ok [text_content (benchmark_report query (Z.min z 50)
                            avg_time min_time max_time times)]), w') /\
    trace w'
    = (opened_at db w ++ run_events query
       ++ repeat_events n (timed_run_events query)
       ++ [EvClose (next_conn w)])%list).
  { subst result. unfold benchmark_query. rewrite Hiter.
    unfold bind at 1. unfold lift at 1, getitem. rewrite Hquery.
    unfold bind at 1. unfold lift at 1. rewrite cap_iterations_int.
    destruct Hdrv as [Hconnect [Hcursor _]].
    unfold bind at 1. unfold get_connection, pymysql_connect.
    rewrite Hconnect. unfold try_finally.
    unfold bind at 1. unfold connection_cursor. rewrite Hcursor.
    unfold bind at 1.
    match goal with |- context [run_once drv _ ?w1] =>
      destruct (run_once_answered query w1) as [w2 [Hrun [Ht2 Hc2]]] end.
    rewrite Hrun. unfold bind at 1. unfold lift at 1, range_len. fold n.
    unfold bind at 1.
    destruct (benchmark_runs_answered query n [] w2) as [w3 [Hruns [Ht3 Hc3]]].
    rewrite Hruns. cbn [app].
    assert (Hat : trace w2 = (opened_at db w ++ run_events query)%list).
    { rewrite Ht2. unfold log, opened_at. tidy. reflexivity. }
    rewrite Hat. fold times.
    eexists.
    unfold bind, lift, ret, rbind, connection_close.
    destruct (average times) as [avg|e];
      [destruct (minimum times) as [mn|e];
       [destruct (maximum times) as [mx|e]|]|];
      cbv beta iota zeta;
      (split; [try reflexivity|]); tidy;
      rewrite ?Ht3, ?Hat; unfold opened_at; tidy;
      rewrite <- ?app_assoc; try reflexivity.
    unfold benchmark_report, str_value. now rewrite !string_app_assoc. }
  destruct Hrun as [w' [Hrun Htrace]].
  rewrite Hrun. now split.
Qed.
End Benchmark_runs.

Lemma steady_driver_answers rows affected :
  answers_all (steady_driver rows affected).
Proof. repeat split; intros; simpl; eauto. Qed.

Section Benchmark_query.

Variable drv : Driver.
Variable db : TiDBConnection.
Variable json_dumps : list Row -> string.


(** The cap of [benchmark_query] at work: a hundred iterations asked for
    give the warm-up and fifty timed runs, and fifty times in the report. *)
Lemma benchmark_hundred_iterations arguments w query :
  answers_all drv ->
  arguments !! "query" = Some (VStr query) ->
  arguments !! "iterations" = Some (VInt 100) ->
  let result := benchmark_query drv db arguments w in
  let times := clock_times drv query (opened_at db w ++ run_events query) 50 in
  exists avg_time min_time max_time,
    fst result
    = Ok [text_content (benchmark_report query 50
                          avg_time min_time max_time times)] /\
    List.length times = 50%nat /\
    trace (snd result)
    = (opened_at db w ++ run_events query
       ++ repeat_events 50 (timed_run_events query)
       ++ [EvClose (next_conn w)])%list.
Proof.
  intros Hdrv Hquery Hiter result times.
  assert (Hget : get_default arguments "iterations" (VInt 5) = VInt 100)
    by (unfold get_default; now rewrite Hiter).
  destruct (benchmark_query_run drv db Hdrv arguments w query 100 Hquery Hget)
    as [Hfst Htrace].
  change (Z.to_nat (Z.min 100 50)) with 50%nat in *.
  change (Z.min 100 50) with 50 in *.
  fold times result in Hfst, Htrace.
  assert (Hlen : List.length times = 50%nat) by apply clock_times_length.
  destruct (statistics_of_times times) as [mn [mx [Havg [Hmn [Hmx _]]]]].
  { intros E. now rewrite E in Hlen. }
  rewrite Havg, Hmn, Hmx in Hfst.
  eexists _, mn, mx.
  split; [exact Hfst|]. split; [exact Hlen | exact Htrace].
Qed.

(** An integer count between 1 and 50 is run as it is, a larger one is
    run 50 times. *)
Lemma benchmark_runs_within_bounds arguments w query z :
  answers_all drv ->
  arguments !! "query" = Some (VStr query) ->
  get_default arguments "iterations" (VInt 5) = VInt z ->
  1 <= z ->
  exists n,
    (1 <= n <= 50)%nat /\ n = Z.to_nat (Z.min z 50) /\
    trace (snd (benchmark_query drv db arguments w))
    = (opened_at db w ++ run_events query
       ++ repeat_events n (timed_run_events query)
       ++ [EvClose (next_conn w)])%list.
Proof.
  intros Hdrv Hquery Hiter Hz.
  destruct (benchmark_query_run drv db Hdrv arguments w query z Hquery Hiter)
    as [_ Htrace].
  exists (Z.to_nat (Z.min z 50)). split; [lia|]. split; [reflexivity|].
  exact Htrace.
Qed.

(** C1, at the input where the code leaves the range. A count of zero or
    less is not raised to 1: after the warm-up no timed run is made, the
    list of times stays empty, and the average divides by zero; the
    dispatcher reports that exception. *)
Theorem benchmark_query_zero_iterations arguments w query z :
  answers_all drv ->
  arguments !! "query" = Some (VStr query) ->
  arguments !! "iterations" = Some (VInt z) ->
  z <= 0 ->
  let result := call_tool drv db json_dumps "benchmark_query" arguments w in
  cap_iterations (VInt z) = Ok (VInt z) /\
  range_len (VInt z) = Ok 0%nat /\
  fst result = Ok [text_content "Error: division by zero"] /\
  trace (snd result)
  = (opened_at db w ++ run_events query ++ [EvClose (next_conn w)])%list.
Proof.
  intros Hdrv Hquery Hiter Hz result.
  assert (Hget : get_default arguments "iterations" (VInt 5) = VInt z)
    by (unfold get_default; now rewrite Hiter).
  destruct (benchmark_query_run drv db Hdrv arguments w query z Hquery Hget)
    as [Hfst Htrace].
  replace (Z.to_nat (Z.min z 50)) with 0%nat in * by lia.
  cbn [clock_times] in Hfst.
  split; [rewrite cap_iterations_int; f_equal; f_equal; lia|].
  split; [simpl; f_equal; lia|].
  subst result.
  change (call_tool drv db json_dumps "benchmark_query" arguments w)
    with (try_except (benchmark_query drv db arguments)
            (fun e => ret [text_content ("Error: " ++ str_exn e)]) w).
  unfold try_except.
  destruct (benchmark_query drv db arguments w) as [[out|e] w'];
    simpl in Hfst, Htrace; [discriminate Hfst|].
  injection Hfst as ->. split; [reflexivity | exact Htrace].
Qed.

End Benchmark_query.


(** The run of the witness, as text: the times grow with the clock. *)
Example benchmark_five_runs :
  fst (call_tool (steady_driver [] 0) default_db count_dumps "benchmark_query"
         (args_of [("query", VStr "SELECT 1")]) world0)
  = Ok [text_content
          ("Query Benchmark Results" ++ nl
           ++ "======================" ++ nl ++ nl
           ++ "Query: SELECT 1" ++ nl
           ++ "Iterations: 5" ++ nl ++ nl
           ++ "Average execution time: 81.00 ms" ++ nl
           ++ "Minimum execution time: 33.00 ms" ++ nl
           ++ "Maximum execution time: 129.00 ms" ++ nl ++ nl
           ++ "Individual times: ['33.00', '57.00', '81.00', '105.00', '129.00'] ms"
           ++ nl)].
Proof. vm_compute. reflexivity. Qed.


(** The summation that compensates the rounding errors gives the same
    average on these times. *)
Example compensated_average_above_maximum :
  let times :=
    clock_times quarter_ms_driver "SELECT 1"
      (opened_at default_db world0 ++ run_events "SELECT 1") 5 in
  Py.sum_compensated times = Py.sum times /\
  Py.fdiv (Py.sum_compensated times) (Py.float_of_int 5)
  = S754_finite false 8827055269646173 (-55).
Proof. vm_compute. split; reflexivity. Qed.

Lemma benchmark_query_zero_iterations_witness :
  fst (call_tool (steady_driver [] 0) default_db count_dumps "benchmark_query"
         (args_of [("query", VStr "SELECT 1"); ("iterations", VInt 0)]) world0)
  = Ok [text_content "Error: division by zero"].
Proof.
  refine (proj1 (proj2 (proj2 (benchmark_query_zero_iterations
            (steady_driver [] 0) default_db count_dumps
            (args_of [("query", VStr "SELECT 1"); ("iterations", VInt 0)])
            world0 "SELECT 1" 0 (steady_driver_answers [] 0) eq_refl eq_refl _))));
    lia.
Defined.

Example benchmark_zero_iterations_events :
  trace (snd (call_tool (steady_driver [] 0) default_db count_dumps
                "benchmark_query"
                (args_of [("query", VStr "SELECT 1"); ("iterations", VInt 0)])
                world0))
  = [EvConnect (connect_args default_db); EvCursor 0;
     EvExecute (VStr "SELECT 1") []; EvFetchall; EvClose 0].
Proof. vm_compute. reflexivity. Qed.


(** * Further properties of the tools *)

(** ** The driver calls of a computation *)

Lemma emits_ret {A} P (a : A) : emits P (ret a).
Proof. intros w. exists []. simpl. now rewrite app_nil_r. Qed.

Lemma emits_lift {A} P (r : Result A) : emits P (lift r).
Proof. intros w. exists []. simpl. now rewrite app_nil_r. Qed.

Lemma emits_rowcount P : emits P cursor_rowcount.
Proof. intros w. exists []. simpl. now rewrite app_nil_r. Qed.

Lemma emits_bind {A B} P (m : M A) (k : A -> M B) :
  emits P m -> (forall a, emits P (k a)) -> emits P (bind m k).
Proof.
  intros Hm Hk w. unfold bind. destruct (Hm w) as [evs1 [Ht1 Hp1]].
  destruct (m w) as [[a|e] w1]; simpl in *.
  - destruct (Hk a w1) as [evs2 [Ht2 Hp2]]. exists (evs1 ++ evs2)%list.
    rewrite Ht2, Ht1, <- app_assoc. split; [reflexivity|].
    apply Forall_app. now split.
  - now exists evs1.
Qed.

Lemma emits_weaken {A} (P Q : Event -> Prop) (m : M A) :
  (forall e, P e -> Q e) -> emits P m -> emits Q m.
Proof.
  intros HPQ Hm w. destruct (Hm w) as [evs [Ht Hp]]. exists evs.
  split; [exact Ht|]. eapply Forall_impl; [exact Hp | exact HPQ].
Qed.

Lemma emits_cursor drv (P : Event -> Prop) c :
  P (EvCursor c) -> emits P (connection_cursor drv c).
Proof.
  intros Hp w. exists [EvCursor c]. unfold connection_cursor.
  destruct (on_cursor drv (trace w)); simpl; split; auto.
Qed.

Lemma emits_execute drv (P : Event -> Prop) stmt params :
  P (EvExecute stmt params) -> emits P (cursor_execute drv stmt params).
Proof.
  intros Hp w. exists [EvExecute stmt params]. unfold cursor_execute.
  destruct (on_execute drv (trace w) stmt params); simpl; split; auto.
Qed.

Lemma emits_fetchall drv (P : Event -> Prop) :
  P EvFetchall -> emits P (cursor_fetchall drv).
Proof.
  intros Hp w. exists [EvFetchall]. unfold cursor_fetchall.
  destruct (on_fetchall drv (trace w)); simpl; split; auto.
Qed.

Lemma emits_fetchone drv (P : Event -> Prop) :
  P EvFetchone -> emits P (cursor_fetchone drv).
Proof.
  intros Hp w. exists [EvFetchone]. unfold cursor_fetchone.
  destruct (on_fetchone drv (trace w)); simpl; split; auto.
Qed.

Lemma emits_commit drv (P : Event -> Prop) c :
  P (EvCommit c) -> emits P (connection_commit drv c).
Proof.
  intros Hp w. exists [EvCommit c]. unfold connection_commit.
  destruct (on_commit drv (trace w)); simpl; split; auto.
Qed.

Lemma emits_time drv (P : Event -> Prop) :
  P EvTime -> emits P (time_time drv).
Proof. intros Hp w. exists [EvTime]. simpl. split; auto. Qed.

Lemma emits_time_if drv (P : Event -> Prop) (measure_time : bool) :
  (measure_time = true -> P EvTime) -> emits P (time_if drv measure_time).
Proof.
  intros Hp. destruct measure_time; simpl; [|apply emits_ret].
  apply emits_bind; [apply emits_time; auto | intros; apply emits_ret].
Qed.

(** Walks through a sequence of statements; the side conditions say that
    each call is one of the allowed ones. *)
Ltac emits_steps :=
  repeat first
    [ apply emits_ret
    | apply emits_lift
    | apply emits_rowcount
    | assumption
    | apply emits_bind; [|intros]
    | apply emits_cursor
    | apply emits_execute
    | apply emits_fetchall
    | apply emits_fetchone
    | apply emits_commit
    | apply emits_time_if
    | apply emits_time
    | match goal with
      | |- emits _ (if ?b then _ else _) => destruct b eqn:?
      | |- emits _ (match ?x with _ => _ end) => destruct x
      end ].

(** One scoped use of a connection logs the connect, the calls of the body
    and, last, the close of the handle. *)
Lemma scoped_events {A} drv db (P : Event -> Prop) (body : nat -> M A) w :
  (forall c, emits P (body c)) ->
  scoped_log db P w
    (snd (bind (get_connection drv db)
            (fun c => try_finally (body c) (connection_close c)) w)).
Proof.
  intros Hbody. unfold bind, get_connection, pymysql_connect, scoped_log.
  destruct (on_connect drv (trace w) (connect_args db)); simpl.
  - now left.
  - right. unfold try_finally.
    match goal with |- context [body ?c ?w1] =>
      destruct (Hbody c w1) as [mid [Ht Hp]]; destruct (body c w1) as [r w2] end.
    exists mid. simpl in *. rewrite Ht, <- !app_assoc. now split.
Qed.

Lemma scoped_log_weaken db (P Q : Event -> Prop) w w' :
  (forall e, P e -> Q e) -> scoped_log db P w w' -> scoped_log db Q w w'.
Proof.
  intros HPQ [H|[mid [Ht Hp]]]; [now left | right].
  exists mid. split; [exact Ht|]. eapply Forall_impl; [exact Hp | exact HPQ].
Qed.

Lemma tool_log_weaken db (P Q : Event -> Prop) w w' :
  (forall e, P e -> Q e) -> tool_log db P w w' -> tool_log db Q w w'.
Proof.
  intros HPQ [H|H]; [now left | right]. now apply (scoped_log_weaken db P Q).
Qed.

(** All that a tool logs are calls of the tool. *)
Lemma tool_log_calls db (P : Event -> Prop) w w' :
  tool_log db P w w' ->
  exists evs, trace w' = (trace w ++ evs)%list /\ Forall (tool_call db P) evs.
Proof.
  intros [H|[H|[mid [Ht Hp]]]].
  - exists []. rewrite app_nil_r. now split.
  - eexists. split; [exact H|]. constructor; [now left | constructor].
  - eexists. split; [exact Ht|]. constructor; [now left|].
    apply Forall_app. split.
    + eapply Forall_impl; [exact Hp|]. intros e He. right. now right.
    + constructor; [|constructor]. right. left. now eexists.
Qed.

Lemma emits_run_once drv (P : Event -> Prop) query :
  P (EvExecute query []) -> P EvFetchall -> emits P (run_once drv query).
Proof. intros He Hf. unfold run_once. emits_steps; assumption. Qed.

Lemma emits_benchmark_runs drv (P : Event -> Prop) query n :
  P (EvExecute query []) -> P EvFetchall -> P EvTime ->
  forall times, emits P (benchmark_runs drv query n times).
Proof.
  intros He Hf Ht. pose proof (emits_run_once drv P query He Hf) as Hrun.
  induction n as [|n IH]; intros times; simpl.
  - apply emits_ret.
  - emits_steps; auto.
Qed.

Section Tool_logs.

Variable drv : Driver.
Variable db : TiDBConnection.
Variable json_dumps : list Row -> string.

Lemma execute_sql_log arguments w :
  tool_log db
    (fun e => exists query,
         arguments !! "query" = Some query /\
         execute_sql_call query (measure_time_of arguments) e)
    w (snd (execute_sql drv db json_dumps arguments w)).
Proof.
  unfold execute_sql. fold (measure_time_of arguments).
  unfold bind at 1, lift, getitem.
  destruct (arguments !! "query") as [query|] eqn:Hquery; [|now left].
  right.
  apply (scoped_log_weaken db (execute_sql_call query (measure_time_of arguments)));
    [intros e He; now exists query|].
  apply scoped_events. intros c.
  emits_steps; simpl; auto.
Qed.

Lemma get_table_info_log arguments w :
  tool_log db
    (table_info_call db (get_default arguments "table_name" VNone))
    w (snd (get_table_info drv db arguments w)).
Proof.
  unfold get_table_info. right. apply scoped_events. intros c.
  emits_steps; simpl; auto.
Qed.

Lemma get_database_stats_log arguments w :
  tool_log db (database_stats_call db)
    w (snd (get_database_stats drv db arguments w)).
Proof.
  unfold get_database_stats. right. apply scoped_events. intros c.
  emits_steps; simpl; auto 6.
Qed.

Lemma benchmark_query_log arguments w :
  tool_log db
    (fun e => exists query,
         arguments !! "query" = Some query /\ benchmark_call query e)
    w (snd (benchmark_query drv db arguments w)).
Proof.
  unfold benchmark_query. unfold bind at 1, lift, getitem.
  destruct (arguments !! "query") as [query|] eqn:Hquery; [|now left].
  unfold bind at 1.
  destruct (cap_iterations _) as [iterations|e]; [|now left].
  right.
  apply (scoped_log_weaken db (benchmark_call query));
    [intros e He; now exists query|].
  apply scoped_events. intros c.
  assert (Hrun : emits (benchmark_call query) (run_once drv query))
    by (apply emits_run_once; simpl; auto).
  assert (Hruns : forall n times,
             emits (benchmark_call query) (benchmark_runs drv query n times))
    by (intros; apply emits_benchmark_runs; simpl; auto).
  emits_steps; simpl; auto.
Qed.

End Tool_logs.

Section Tool_calls.

Variable drv : Driver.
Variable db : TiDBConnection.
Variable json_dumps : list Row -> string.

(** X1. Whatever the name, the arguments and the answers of the database,
    one call of [call_tool] either logs nothing, or logs one refused
    connect, or logs one connect, then calls that are neither a connect nor
    a close, then the close of the handle that the connect returned; the
    connect always carries the arguments of the configuration. *)
Theorem call_tool_one_connection name arguments w :
  tool_log db inner_call w (snd (call_tool drv db json_dumps name arguments w)).
Proof.
  unfold call_tool, try_except.
  assert (Hbody : tool_log db inner_call w (snd (
    (if String.eqb name "execute_sql" then execute_sql drv db json_dumps arguments
     else if String.eqb name "get_table_info" then get_table_info drv db arguments
     else if String.eqb name "get_database_stats"
          then get_database_stats drv db arguments
     else if String.eqb name "benchmark_query"
          then benchmark_query drv db arguments
     else ret [text_content ("Unknown tool: " ++ name)]) w))).
  { destruct (String.eqb name "execute_sql").
    { eapply tool_log_weaken; [|apply execute_sql_log].
      intros e [query [_ He]]. destruct e; simpl in *; tauto. }
    destruct (String.eqb name "get_table_info").
    { eapply tool_log_weaken; [|apply get_table_info_log].
      intros e He. destruct e; simpl in *; tauto. }
    destruct (String.eqb name "get_database_stats").
    { eapply tool_log_weaken; [|apply get_database_stats_log].
      intros e He. destruct e; simpl in *; tauto. }
    destruct (String.eqb name "benchmark_query").
    { eapply tool_log_weaken; [|apply benchmark_query_log].
      intros e [query [_ He]]. destruct e; simpl in *; tauto. }
    now left. }
  match type of Hbody with tool_log _ _ _ (snd ?run) =>
    destruct run as [[out|e] w'] end; exact Hbody.
Qed.

(** X2. The calls of [get_table_info], whatever its arguments and the
    answers of the database: besides the connect and the close, a cursor,
    a fetch of all rows, and the execution of one of the two fixed
    statements, with the database name and, for the one-table statement, the
    table name passed as parameters.  The text of the statement never
    contains the argument, nothing is committed and the clock is not read. *)
Theorem get_table_info_calls arguments w :
  exists evs,
    trace (snd (get_table_info drv db arguments w)) = (trace w ++ evs)%list /\
    Forall (tool_call db
              (table_info_call db (get_default arguments "table_name" VNone)))
      evs.
Proof. apply tool_log_calls, get_table_info_log. Qed.

(** X3. The calls of [get_database_stats]: besides the connect and the
    close, a cursor, fetches of one row, and the execution of its three fixed
    statements, the second with the database name as parameter.  Nothing is
    committed and no statement depends on the arguments. *)
Theorem get_database_stats_calls arguments w :
  exists evs,
    trace (snd (get_database_stats drv db arguments w)) = (trace w ++ evs)%list /\
    Forall (tool_call db (database_stats_call db)) evs.
Proof. apply tool_log_calls, get_database_stats_log. Qed.

(** X4. [benchmark_query] never commits: whatever the statement, the
    iteration count and the answers of the database, its calls are the
    connect, a cursor, executions of the given statement without parameters,
    fetches, clock readings and the close. *)
Theorem benchmark_query_never_commits arguments w :
  exists evs,
    trace (snd (benchmark_query drv db arguments w)) = (trace w ++ evs)%list /\
    Forall (tool_call db
              (fun e => exists query,
                   arguments !! "query" = Some query /\ benchmark_call query e))
      evs /\
    forall c, ~ In (EvCommit c) evs.
Proof.
  destruct (tool_log_calls db _ w _ (benchmark_query_log drv db arguments w))
    as [evs [Ht Hp]].
  exists evs. split; [exact Ht|]. split; [exact Hp|].
  intros c Hin. rewrite Forall_forall in Hp.
  apply list_elem_of_In in Hin.
  destruct (Hp _ Hin) as [H|[[c' H]|[query [_ H]]]];
    [discriminate H | discriminate H | exact H].
Qed.

(** X5. The calls of [execute_sql]: besides the connect and the close, a
    cursor, one kind of statement (the given one, without parameters), a
    fetch or a commit, and clock readings only when [measure_time] is
    true in Python's sense; with [measure_time] absent or false the clock is
    never read. *)
Theorem execute_sql_calls arguments w :
  exists evs,
    trace (snd (execute_sql drv db json_dumps arguments w)) = (trace w ++ evs)%list /\
    Forall (tool_call db
              (fun e => exists query,
                   arguments !! "query" = Some query /\
                   execute_sql_call query (measure_time_of arguments) e))
      evs /\
    (measure_time_of arguments = false -> ~ In EvTime evs).
Proof.
  destruct (tool_log_calls db _ w _ (execute_sql_log drv db json_dumps arguments w))
    as [evs [Ht Hp]].
  exists evs. split; [exact Ht|]. split; [exact Hp|].
  intros Hmt Hin. rewrite Forall_forall in Hp.
  apply list_elem_of_In in Hin.
  destruct (Hp _ Hin) as [H|[[c' H]|[query [_ H]]]];
    [discriminate H | discriminate H | simpl in H; congruence].
Qed.

End Tool_calls.

Lemma execute_sql_calls_witness :
  measure_time_of (args_of [("query", VStr "select 1")]) = false /\
  exists evs,
    trace (snd (execute_sql failing_driver default_db count_dumps
                  (args_of [("query", VStr "select 1")]) world0))
    = (trace world0 ++ evs)%list /\
    ~ In EvTime evs.
Proof.
  split; [reflexivity|].
  destruct (execute_sql_calls failing_driver default_db count_dumps
              (args_of [("query", VStr "select 1")]) world0)
    as [evs [Ht [_ Hno]]].
  exists evs. split; [exact Ht | apply Hno; reflexivity].
Defined.

(** ** Arguments that are missing or of the wrong type *)

(** Splits on the answer of the database to the next call in the goal. *)
Ltac case_goal :=
  match goal with
  | |- context [on_connect ?d ?t ?a] => destruct (on_connect d t a) eqn:?
  | |- context [on_cursor ?d ?t] => destruct (on_cursor d t) eqn:?
  | |- context [on_execute ?d ?t ?s ?p] => destruct (on_execute d t s p) eqn:?
  | |- context [on_fetchall ?d ?t] => destruct (on_fetchall d t) eqn:?
  | |- context [on_fetchone ?d ?t] => destruct (on_fetchone d t) eqn:?
  | |- context [on_commit ?d ?t] => destruct (on_commit d t) eqn:?
  end;
  cbv beta iota; tidy.

Section Bad_arguments.

Variable drv : Driver.
Variable db : TiDBConnection.
Variable json_dumps : list Row -> string.

(** X6. Without a [query] argument, [execute_sql] and [benchmark_query]
    fail on the lookup before anything else happens: the answer is the text
    [Error: 'query'] and the world is untouched, so no connection was
    attempted. *)
Theorem missing_query_no_connection arguments w :
  arguments !! "query" = None ->
  call_tool drv db json_dumps "execute_sql" arguments w
  = (Ok [text_content "Error: 'query'"], w) /\
  call_tool drv db json_dumps "benchmark_query" arguments w
  = (Ok [text_content "Error: 'query'"], w).
Proof.
  intros Hquery. split.
  - change (call_tool drv db json_dumps "execute_sql" arguments w)
      with (try_except (execute_sql drv db json_dumps arguments)
              (fun e => ret [text_content ("Error: " ++ str_exn e)]) w).
    unfold try_except, execute_sql. unfold bind at 1, lift, getitem.
    now rewrite Hquery.
  - change (call_tool drv db json_dumps "benchmark_query" arguments w)
      with (try_except (benchmark_query drv db arguments)
              (fun e => ret [text_content ("Error: " ++ str_exn e)]) w).
    unfold try_except, benchmark_query. unfold bind at 1, lift, getitem.
    now rewrite Hquery.
Qed.

(** X7. An [iterations] argument that is [None] or a string cannot be
    compared with 50: [benchmark_query] fails with the [TypeError] of that
    comparison before it connects, and the world is untouched. *)
Theorem bad_iterations_no_connection arguments w query iterations :
  arguments !! "query" = Some query ->
  arguments !! "iterations" = Some iterations ->
  iterations = VNone \/ (exists s, iterations = VStr s) ->
  call_tool drv db json_dumps "benchmark_query" arguments w
  = (Ok [text_content
           ("Error: '>' not supported between instances of '"
            ++ type_name iterations ++ "' and 'int'")], w).
Proof.
  intros Hquery Hiter Hkind.
  change (call_tool drv db json_dumps "benchmark_query" arguments w)
    with (try_except (benchmark_query drv db arguments)
            (fun e => ret [text_content ("Error: " ++ str_exn e)]) w).
  unfold try_except, benchmark_query, get_default. rewrite Hiter.
  unfold bind at 1, lift at 1, getitem. rewrite Hquery.
  unfold bind at 1, lift at 1.
  destruct Hkind as [->|[s ->]]; reflexivity.
Qed.

(** X8. A [query] that is not a string is not checked before it is used:
    [execute_sql] connects and hands the value to the database, and whatever
    the database answers the invocation ends in an exception (at the latest
    the [AttributeError] of the prefix test), without any fetch or commit. *)
Theorem execute_sql_non_string_query arguments w query :
  arguments !! "query" = Some query ->
  (forall s, query <> VStr s) ->
  let result := execute_sql drv db json_dumps arguments w in
  exists e evs,
    fst result = Raise e /\
    trace (snd result) = (trace w ++ evs)%list /\
    ~ In EvFetchall evs /\ (forall c, ~ In (EvCommit c) evs) /\
    (on_connect drv (trace w) (connect_args db) = None ->
     on_cursor drv (connected_at db w) = None ->
     In (EvExecute query []) evs /\
     (forall n,
         on_execute drv (started_at db w (measure_time_of arguments)) query []
         = inr n ->
         e = AttributeError ("'" ++ type_name query
                             ++ "' object has no attribute 'strip'"))).
Proof.
  intros Hquery Hkind result. subst result.
  unfold execute_sql. fold (measure_time_of arguments).
  unfold_histories. unfold_calls. rewrite Hquery.
  assert (Hraise : exists msg, value_is_projection query = Raise (AttributeError msg)
                   /\ msg = "'" ++ type_name query ++ "' object has no attribute 'strip'").
  { destruct query as [| | |s]; [| | |now destruct (Hkind s)]; eexists; split; reflexivity. }
  destruct Hraise as [msg [Hraise Hmsg]]. unfold value_is_projection in Hraise.
  destruct (measure_time_of arguments);
    (case_goal; [| case_goal; [| case_goal; [| rewrite Hraise; tidy ] ] ]);
    do 2 eexists; (split; [reflexivity|]);
    (split; [reflexivity|]);
    (split; [simpl; intuition discriminate|]);
    (split; [intros c; simpl; intuition discriminate|]);
    intros Hc Hcu; tidy_in Hcu; try congruence;
    (split; [simpl; auto 6|]); intros n Hn; tidy_in Hn; congruence.
Qed.

End Bad_arguments.

Lemma missing_query_no_connection_witness :
  call_tool (steady_driver [] 0) default_db count_dumps "execute_sql"
    (args_of [("measure_time", VBool true)]) world0
  = (Ok [text_content "Error: 'query'"], world0).
Proof.
  apply (proj1 (missing_query_no_connection (steady_driver [] 0) default_db
                  count_dumps (args_of [("measure_time", VBool true)]) world0
                  eq_refl)).
Defined.

Lemma bad_iterations_no_connection_witness :
  call_tool (steady_driver [] 0) default_db count_dumps "benchmark_query"
    (args_of [("query", VStr "select 1"); ("iterations", VStr "ten")]) world0
  = (Ok [text_content
           "Error: '>' not supported between instances of 'str' and 'int'"],
     world0).
Proof.
  apply (bad_iterations_no_connection (steady_driver [] 0) default_db
           count_dumps
           (args_of [("query", VStr "select 1"); ("iterations", VStr "ten")])
           world0 (VStr "select 1") (VStr "ten") eq_refl eq_refl).
  right. now exists "ten".
Defined.

Lemma execute_sql_non_string_query_witness :
  exists e, fst (execute_sql (steady_driver [] 0) default_db count_dumps
                   (args_of [("query", VInt 7)]) world0) = Raise e.
Proof.
  destruct (execute_sql_non_string_query (steady_driver [] 0) default_db
              count_dumps (args_of [("query", VInt 7)]) world0 (VInt 7)
              eq_refl ltac:(intros s H; discriminate H))
    as [e [evs [He _]]].
  now exists e.
Defined.

(** ** The prefix test ignores case and surrounding white space *)

Lemma isspace_upper_char (c : ascii) :
  Py.isspace (Py.upper_char c) = Py.isspace c.
Proof. destruct c as [[] [] [] [] [] [] [] []]; reflexivity. Qed.

Lemma upper_char_idem (c : ascii) :
  Py.upper_char (Py.upper_char c) = Py.upper_char c.
Proof. destruct c as [[] [] [] [] [] [] [] []]; reflexivity. Qed.

Lemma upper_idem (s : string) : Py.upper (Py.upper s) = Py.upper s.
Proof.
  induction s as [|c s IH]; simpl; [reflexivity|].
  now rewrite upper_char_idem, IH.
Qed.

Lemma upper_lstrip (s : string) : Py.upper (Py.lstrip s) = Py.lstrip (Py.upper s).
Proof.
  induction s as [|c s IH]; simpl; [reflexivity|].
  rewrite isspace_upper_char. destruct (Py.isspace c); [exact IH | reflexivity].
Qed.

Lemma upper_rstrip (s : string) : Py.upper (Py.rstrip s) = Py.rstrip (Py.upper s).
Proof.
  induction s as [|c s IH]; simpl; [reflexivity|].
  rewrite <- IH, isspace_upper_char.
  destruct (Py.rstrip s); simpl; [destruct (Py.isspace c)|]; reflexivity.
Qed.

Lemma upper_strip (s : string) : Py.upper (Py.strip s) = Py.strip (Py.upper s).
Proof. unfold Py.strip. now rewrite upper_lstrip, upper_rstrip. Qed.

Lemma strip_leading_space (c : ascii) (s : string) :
  Py.isspace c = true -> Py.strip (String c s) = Py.strip s.
Proof.
  intros Hc. unfold Py.strip. simpl.
  destruct (Py.rstrip s); simpl; now rewrite Hc.
Qed.

Lemma strip_leading_blank (lead s : string) :
  blank lead = true -> Py.strip (lead ++ s) = Py.strip s.
Proof.
  induction lead as [|c lead IH]; intros Hb; [reflexivity|].
  simpl in Hb. apply andb_prop in Hb. destruct Hb as [Hc Hb].
  change (Py.strip (String c (lead ++ s)) = Py.strip s).
  rewrite strip_leading_space by exact Hc. now apply IH.
Qed.

Lemma rstrip_blank (s : string) : blank s = true -> Py.rstrip s = "".
Proof.
  induction s as [|c s IH]; intros Hb; [reflexivity|].
  simpl in Hb. apply andb_prop in Hb. destruct Hb as [Hc Hb].
  simpl. rewrite (IH Hb). now rewrite Hc.
Qed.

Lemma rstrip_trailing_blank (s trail : string) :
  blank trail = true -> Py.rstrip (s ++ trail) = Py.rstrip s.
Proof.
  intros Hb. induction s as [|c s IH].
  - change (Py.rstrip trail = ""). now apply rstrip_blank.
  - change (Py.rstrip (String c (s ++ trail)) = Py.rstrip (String c s)).
    simpl. now rewrite IH.
Qed.

(** X9. The prefix test sees neither the case of the letters nor the
    white space around the statement: two statements with the same
    upper-cased text are classified alike, and so are a statement and the
    same statement with white space put before and after it. *)
Theorem is_projection_case_and_space (query : string) :
  (forall other, Py.upper other = Py.upper query ->
                 is_projection other = is_projection query) /\
  (forall lead trail, blank lead = true -> blank trail = true ->
                      is_projection (lead ++ query ++ trail) = is_projection query).
Proof.
  split.
  - intros other Hup. unfold is_projection.
    now rewrite !upper_strip, Hup.
  - intros lead trail Hlead Htrail. unfold is_projection.
    rewrite strip_leading_blank by exact Hlead.
    unfold Py.strip. now rewrite rstrip_trailing_blank.
Qed.

Lemma is_projection_case_and_space_witness :
  is_projection "Select 1" = is_projection "sELECT 1".
Proof.
  apply (proj1 (is_projection_case_and_space "sELECT 1") "Select 1").
  reflexivity.
Defined.

(** ** [get_table_info]: rows that cannot be printed *)

(** X10. The text of a table is produced exactly for the rows that have
    the seven columns with integer counts; a missing column, or a count that
    is NULL or a string, raises. *)
Theorem table_text_ok_iff (table : Row) :
  (exists t, table_text table = Ok t) <-> printable_table table.
Proof.
  unfold table_text, printable_table, row_getitem, rbind, format_size,
    format_comma_db, format_mb_db, rbind.
  split.
  - intros [t H].
    destruct (row_lookup table "table_name") as [name|]; [|discriminate H].
    destruct (row_lookup table "table_rows") as [[|rows|]|]; try discriminate H.
    destruct (row_lookup table "data_length") as [[|data|]|]; try discriminate H.
    destruct (row_lookup table "index_length") as [[|index|]|]; try discriminate H.
    destruct (row_lookup table "total_size") as [[|total|]|]; try discriminate H.
    destruct (row_lookup table "auto_increment") as [auto|]; [|discriminate H].
    destruct (row_lookup table "table_comment") as [comment|]; [|discriminate H].
    repeat split; eauto.
  - intros [[name ->] [[rows ->] [[data ->] [[index ->] [[total ->]
             [[auto ->] [comment ->]]]]]]].
    eexists. reflexivity.
Qed.

(** The loop stops at the first row that cannot be printed, with the
    exception of that row. *)
Lemma tables_text_first_failure (pre : list Row) :
  forall texts result_text row post e,
    Forall2 (fun r t => table_text r = Ok t) pre texts ->
    table_text row = Raise e ->
    tables_text result_text (pre ++ row :: post) = Raise e.
Proof.
  induction pre as [|r pre IH]; intros texts result_text row post e Hall Hrow;
    inversion Hall as [|? t ? texts' Hr Hrest]; subst; simpl.
  - now rewrite Hrow.
  - rewrite Hr. simpl. now apply (IH texts').
Qed.

Section Get_table_info_rows.

Variable drv : Driver.
Variable db : TiDBConnection.
Variable json_dumps : list Row -> string.

(** The run of [get_table_info] when the database answers with [rows]. *)
Lemma get_table_info_run arguments w n rows :
  on_connect drv (trace w) (connect_args db) = None ->
  on_cursor drv (connected_at db w) = None ->
  on_execute drv (opened_at db w) (table_info_stmt arguments)
    (table_info_params db arguments) = inr n ->
  on_fetchall drv
    (opened_at db w ++ [EvExecute (table_info_stmt arguments)
                          (table_info_params db arguments)])%list
  = inr rows ->
  fst (get_table_info drv db arguments w)
  = match rows with
    | [] => Ok [text_content "No tables found."]
    | _ :: _ =>
        match tables_text ("Table Information:" ++ nl ++ nl) rows with
        | Ok t => Ok [text_content t]
        | Raise e => Raise e
        end
    end.
Proof.
  intros Hconnect Hcursor Hexecute Hfetch. unfold get_table_info.
  unfold table_info_stmt, table_info_params, opened_at, connected_at in *.
  unfold_calls. tidy_in Hfetch.
  answer Hconnect. answer Hcursor.
  destruct (truthy (get_default arguments "table_name" VNone));
    answer Hexecute; answer Hfetch;
    (destruct rows as [|row rows']; [tidy; reflexivity|]);
    destruct (tables_text _ (row :: rows')); tidy; reflexivity.
Qed.

(** X11. One row that cannot be printed spoils the whole listing: when the
    rows before it can be printed and it cannot, [get_table_info] raises the
    exception of that row, and the caller gets its message and nothing of
    the tables already printed. *)
Theorem get_table_info_all_or_nothing arguments w n pre texts row post e :
  on_connect drv (trace w) (connect_args db) = None ->
  on_cursor drv (connected_at db w) = None ->
  on_execute drv (opened_at db w) (table_info_stmt arguments)
    (table_info_params db arguments) = inr n ->
  on_fetchall drv
    (opened_at db w ++ [EvExecute (table_info_stmt arguments)
                          (table_info_params db arguments)])%list
  = inr (pre ++ row :: post)%list ->
  Forall2 (fun r t => table_text r = Ok t) pre texts ->
  table_text row = Raise e ->
  fst (get_table_info drv db arguments w) = Raise e /\
  fst (call_tool drv db json_dumps "get_table_info" arguments w)
  = Ok [text_content ("Error: " ++ str_exn e)].
Proof.
  intros Hconnect Hcursor Hexecute Hfetch Hpre Hrow.
  pose proof (get_table_info_run arguments w n _ Hconnect Hcursor Hexecute Hfetch)
    as Hrun.
  rewrite (tables_text_first_failure pre texts _ row post e Hpre Hrow) in Hrun.
  assert (Hfst : fst (get_table_info drv db arguments w) = Raise e).
  { rewrite Hrun. destruct pre; reflexivity. }
  split; [exact Hfst|].
  change (call_tool drv db json_dumps "get_table_info" arguments w)
    with (try_except (get_table_info drv db arguments)
            (fun e => ret [text_content ("Error: " ++ str_exn e)]) w).
  unfold try_except.
  destruct (get_table_info drv db arguments w) as [[out|e'] w'];
    simpl in Hfst; [discriminate Hfst|]. now injection Hfst as ->.
Qed.

(** X12. A [table_name] that is false in Python's sense (the empty string,
    [None], zero, [False]) is treated as no [table_name] at all: the run is
    the run without the argument, and lists all tables. *)
Theorem get_table_info_falsy_table_name arguments w :
  truthy (get_default arguments "table_name" VNone) = false ->
  get_table_info drv db arguments w
  = get_table_info drv db (delete "table_name" arguments) w.
Proof.
  intros Hfalsy. unfold get_table_info.
  assert (Hdel : get_default (delete "table_name" arguments) "table_name" VNone
                 = VNone)
    by (unfold get_default; now rewrite lookup_delete_eq).
  rewrite Hdel, Hfalsy. reflexivity.
Qed.

End Get_table_info_rows.

Lemma table_text_ok_iff_witness :
  exists t, table_text (table_row "users" 15 16384 0) = Ok t.
Proof.
  apply (proj2 (table_text_ok_iff (table_row "users" 15 16384 0))).
  unfold printable_table. repeat split; eexists; reflexivity.
Defined.

Lemma get_table_info_all_or_nothing_witness :
  fst (call_tool
         (steady_driver [table_row "users" 15 16384 0;
                         [("table_name", DStr "v_orders"); ("table_rows", DNull)]] 0)
         default_db count_dumps "get_table_info" (args_of []) world0)
  = Ok [text_content
          "Error: unsupported format string passed to NoneType.__format__"].
Proof.
  refine (proj2 (get_table_info_all_or_nothing
                   (steady_driver [table_row "users" 15 16384 0;
                                   [("table_name", DStr "v_orders");
                                    ("table_rows", DNull)]] 0)
                   default_db count_dumps (args_of []) world0 0
                   [table_row "users" 15 16384 0] [_]
                   [("table_name", DStr "v_orders"); ("table_rows", DNull)] []
                   (TypeError "unsupported format string passed to NoneType.__format__")
                   eq_refl eq_refl eq_refl eq_refl _ eq_refl)).
  constructor; [reflexivity | constructor].
Defined.

Lemma get_table_info_falsy_table_name_witness :
  get_table_info (steady_driver two_tables 0) default_db
    (args_of [("table_name", VStr "")]) world0
  = get_table_info (steady_driver two_tables 0) default_db
      (delete "table_name" (args_of [("table_name", VStr "")])) world0.
Proof.
  apply (get_table_info_falsy_table_name (steady_driver two_tables 0) default_db
           (args_of [("table_name", VStr "")]) world0 eq_refl).
Defined.

(** ** [get_database_stats] *)

Section Get_database_stats.

Variable drv : Driver.
Variable db : TiDBConnection.
Variable json_dumps : list Row -> string.

(** The run of [get_database_stats] when the database answers. *)
Lemma get_database_stats_answered arguments w n1 n2 n3 db_info stats connections :
  on_connect drv (trace w) (connect_args db) = None ->
  on_cursor drv (connected_at db w) = None ->
  on_execute drv (stats_history db w 0) (VStr db_info_sql) [] = inr n1 ->
  on_fetchone drv (stats_history db w 1) = inr db_info ->
  on_execute drv (stats_history db w 2) (VStr table_stats_sql)
    [VStr (database db)] = inr n2 ->
  on_fetchone drv (stats_history db w 3) = inr stats ->
  on_execute drv (stats_history db w 4) (VStr threads_sql) [] = inr n3 ->
  on_fetchone drv (stats_history db w 5) = inr connections ->
  get_database_stats drv db arguments w
  = (match stats_text db db_info stats connections with
     | Ok t => Ok [text_content t]
     | Raise e => Raise e
     end,
     {| trace := (opened_at db w ++ stats_events db
                  ++ [EvClose (next_conn w)])%list;
        open_conns := List.filter (fun c => negb (Nat.eqb c (next_conn w)))
                        (next_conn w :: open_conns w);
        next_conn := S (next_conn w);
        rowcount := n3 |}).
Proof.
  intros Hconnect Hcursor He1 Hf1 He2 Hf2 He3 Hf3.
  unfold get_database_stats.
  unfold stats_history, stats_events, opened_at, connected_at in *.
  simpl firstn in *.
  tidy_in He1. tidy_in Hf1. tidy_in He2. tidy_in Hf2. tidy_in He3. tidy_in Hf3.
  rewrite ?app_nil_r in He1.
  unfold_calls.
  answer Hconnect. answer Hcursor. answer He1. answer Hf1. answer He2.
  answer Hf2. answer He3. answer Hf3.
  destruct (stats_text db db_info stats connections); tidy; reflexivity.
Qed.

(** X13. When the database answers, [get_database_stats] runs its three
    statements, each followed by the fetch of one row, before it formats
    anything, then closes the connection; its result is the report made of
    the three rows, or the exception that the formatting raises. *)
Theorem get_database_stats_report arguments w n1 n2 n3 db_info stats connections :
  on_connect drv (trace w) (connect_args db) = None ->
  on_cursor drv (connected_at db w) = None ->
  on_execute drv (stats_history db w 0) (VStr db_info_sql) [] = inr n1 ->
  on_fetchone drv (stats_history db w 1) = inr db_info ->
  on_execute drv (stats_history db w 2) (VStr table_stats_sql)
    [VStr (database db)] = inr n2 ->
  on_fetchone drv (stats_history db w 3) = inr stats ->
  on_execute drv (stats_history db w 4) (VStr threads_sql) [] = inr n3 ->
  on_fetchone drv (stats_history db w 5) = inr connections ->
  let result := get_database_stats drv db arguments w in
  fst result
  = match stats_text db db_info stats connections with
    | Ok t => Ok [text_content t]
    | Raise e => Raise e
    end
  /\ trace (snd result)
     = (opened_at db w ++ stats_events db ++ [EvClose (next_conn w)])%list
  /\ open_conns (snd result) = List.filter (fun c => negb (Nat.eqb c (next_conn w)))
                                 (next_conn w :: open_conns w).
Proof.
  intros Hconnect Hcursor He1 Hf1 He2 Hf2 He3 Hf3 result. subst result.
  rewrite (get_database_stats_answered arguments w n1 n2 n3 db_info stats connections)
    by assumption.
  repeat split.
Qed.

(** X14. The sums over the tables of an empty schema are NULL, and the
    report cannot print a NULL with thousands separators: when the row of
    totals has a NULL [total_rows], and the lines before it can be printed,
    the report raises a [TypeError] instead of showing zeros. *)
Theorem stats_text_null_totals db_info stats connections name version count :
  opt_row_getitem db_info "current_db" = Ok name ->
  opt_row_getitem db_info "version" = Ok version ->
  opt_row_getitem stats "table_count" = Ok count ->
  opt_row_getitem stats "total_rows" = Ok DNull ->
  stats_text db db_info stats connections
  = Raise (TypeError "unsupported format string passed to NoneType.__format__").
Proof.
  intros Hname Hversion Hcount Hrows. unfold stats_text.
  rewrite Hname. simpl. rewrite Hversion. simpl. rewrite Hcount. simpl.
  rewrite Hrows. reflexivity.
Qed.

(** X15. The line [Active connections] is optional: when the status
    statement returns no row, or an empty one, the report is the report
    without that line; when it returns a row with a [Value], the line with
    that value is added at the end. *)
Theorem stats_text_connections_line db_info stats t :
  stats_text db db_info stats None = Ok t ->
  stats_text db db_info stats (Some []) = Ok t /\
  forall row value,
    row <> [] ->
    row_lookup row "Value" = Some value ->
    stats_text db db_info stats (Some row)
    = Ok (t ++ "Active connections: " ++ str_db value ++ nl).
Proof.
  unfold stats_text. intros H.
  destruct (opt_row_getitem db_info "current_db") as [v1|]; [|discriminate H].
  simpl in *.
  destruct (opt_row_getitem db_info "version") as [v2|]; [|discriminate H].
  simpl in *.
  destruct (opt_row_getitem stats "table_count") as [v3|]; [|discriminate H].
  simpl in *.
  destruct (opt_row_getitem stats "total_rows") as [v4|]; [|discriminate H].
  simpl in *.
  destruct (format_comma_db v4) as [s4|]; [|discriminate H]. simpl in *.
  destruct (opt_row_getitem stats "total_data_size") as [v5|]; [|discriminate H].
  simpl in *.
  destruct (format_size v5) as [s5|]; [|discriminate H]. simpl in *.
  destruct (opt_row_getitem stats "total_index_size") as [v6|]; [|discriminate H].
  simpl in *.
  destruct (format_size v6) as [s6|]; [|discriminate H]. simpl in *.
  destruct (opt_row_getitem stats "total_size") as [v7|]; [|discriminate H].
  simpl in *.
  destruct (format_size v7) as [s7|]; [|discriminate H]. simpl in *.
  split; [exact H|].
  intros row value Hrow Hvalue. destruct row as [|r row]; [congruence|].
  unfold row_getitem. rewrite Hvalue. simpl.
  injection H as <-. reflexivity.
Qed.

End Get_database_stats.

Lemma get_database_stats_report_witness :
  trace (snd (get_database_stats (steady_driver [stats_row] 0) default_db
                (args_of []) world0))
  = (opened_at default_db world0 ++ stats_events default_db
     ++ [EvClose (next_conn world0)])%list.
Proof.
  refine (proj1 (proj2 (get_database_stats_report (steady_driver [stats_row] 0)
                          default_db (args_of []) world0 0 0 0
                          (Some stats_row) (Some stats_row) (Some stats_row)
                          _ _ _ _ _ _ _ _))); reflexivity.
Defined.

Lemma stats_text_null_totals_witness :
  stats_text default_db
    (Some [("current_db", DStr "test"); ("version", DStr "8.0.11")])
    (Some [("table_count", DInt 0); ("total_rows", DNull);
           ("total_data_size", DNull); ("total_index_size", DNull);
           ("total_size", DNull)])
    None
  = Raise (TypeError "unsupported format string passed to NoneType.__format__").
Proof.
  apply (stats_text_null_totals default_db _ _ None
           (DStr "test") (DStr "8.0.11") (DInt 0));
    reflexivity.
Defined.

Lemma stats_text_connections_line_witness :
  exists t,
    stats_text default_db (Some stats_row) (Some stats_row) None = Ok t /\
    stats_text default_db (Some stats_row) (Some stats_row) (Some []) = Ok t.
Proof.
  destruct (stats_text default_db (Some stats_row) (Some stats_row) None)
    as [t|e] eqn:H; [|vm_compute in H; discriminate H].
  exists t. split; [reflexivity|].
  apply (proj1 (stats_text_connections_line default_db (Some stats_row)
                  (Some stats_row) t H)).
Defined.

(** ** [benchmark_query] and [execute_sql] for every count and statement *)

Section Reports.

Variable drv : Driver.
Variable db : TiDBConnection.
Variable json_dumps : list Row -> string.

(** X16. For every integer count of at least one and a database that
    answers: [benchmark_query] makes the warm-up run and then as many timed
    runs as the count, at most 50; the report names that number and lists
    that many times, each the milliseconds between the two readings of the
    clock around one run; its minimum and maximum are among these times,
    with none below the minimum and none above the maximum; and its average
    is their sum, added as floats, divided by their number. *)
Theorem benchmark_query_report arguments w query z :
  answers_all drv ->
  arguments !! "query" = Some (VStr query) ->
  get_default arguments "iterations" (VInt 5) = VInt z ->
  1 <= z ->
  let n := Z.to_nat (Z.min z 50) in
  let result := benchmark_query drv db arguments w in
  let times := clock_times drv query (opened_at db w ++ run_events query) n in
  exists min_time max_time,
    fst result
    = Ok [text_content
            (benchmark_report query (Z.min z 50)
               (Py.fdiv (Py.sum times) (Py.float_of_int (Z.min z 50)))
               min_time max_time times)] /\
    List.length times = n /\ (1 <= n <= 50)%nat /\
    In min_time times /\ none_below min_time times /\
    In max_time times /\ none_above max_time times /\
    trace (snd result)
    = (opened_at db w ++ run_events query
       ++ repeat_events n (timed_run_events query)
       ++ [EvClose (next_conn w)])%list.
Proof.
  intros Hdrv Hquery Hiter Hz n result times.
  destruct (benchmark_query_run drv db Hdrv arguments w query z Hquery Hiter)
    as [Hfst Htrace].
  fold n times result in Hfst, Htrace.
  assert (Hn : (1 <= n <= 50)%nat) by (subst n; lia).
  assert (Hlen : List.length times = n) by apply clock_times_length.
  destruct (statistics_of_times times) as
    [mn [mx [Havg [Hmn [Hmx [Hin_mn [Hlo [Hin_mx Hhi]]]]]]]].
  { intros E. rewrite E in Hlen. simpl in Hlen. lia. }
  rewrite Havg, Hmn, Hmx, Hlen in Hfst.
  replace (Z.of_nat n) with (Z.min z 50) in Hfst by (subst n; lia).
  exists mn, mx.
  split; [exact Hfst|]. split; [exact Hlen|]. split; [exact Hn|].
  split; [exact Hin_mn|]. split; [exact Hlo|].
  split; [exact Hin_mx|]. split; [exact Hhi | exact Htrace].
Qed.

(** X17. For a statement that fails the prefix test: when the database
    answers, [execute_sql] commits once, after the execution, fetches
    nothing, and reports the row count that the execution left on the
    cursor; every result that [execute_sql] returns for such a statement
    has this shape. *)
Theorem execute_sql_mutation_report arguments w query :
  arguments !! "query" = Some (VStr query) ->
  is_projection query = false ->
  let mt := measure_time_of arguments in
  let result := execute_sql drv db json_dumps arguments w in
  let report affected :=
    [text_content (affected_report (timing_line drv db w mt query) affected)] in
  (forall affected,
      on_connect drv (trace w) (connect_args db) = None ->
      on_cursor drv (connected_at db w) = None ->
      on_execute drv (started_at db w mt) (VStr query) [] = inr affected ->
      on_commit drv (timed_at db w mt query) = None ->
      fst result = Ok (report affected) /\
      trace (snd result)
      = (trace w ++ execute_sql_events db (next_conn w) mt query
                      (EvCommit (next_conn w)))%list)
  /\ (forall out,
         fst result = Ok out ->
         exists affected,
           on_execute drv (started_at db w mt) (VStr query) [] = inr affected /\
           out = report affected).
Proof.
  intros Hquery Hp mt result report. split.
  - intros affected Hconnect Hcursor Hexecute Hcommit.
    now apply (execute_sql_mutation_run drv db json_dumps arguments w query
                 affected).
  - intros out Hout.
    destruct (execute_sql_ok_mutation drv db json_dumps arguments w query out
                Hquery Hp Hout) as [affected [Hexecute [Hrep _]]].
    now exists affected.
Qed.

(** X18. The tools read their own arguments only: [execute_sql] depends
    on [query] and on the truth value of [measure_time], [benchmark_query]
    on [query] and [iterations], and [get_database_stats] on nothing;
    whatever else the argument map holds makes no difference. *)
Theorem tools_read_their_arguments_only arguments arguments' w :
  (arguments !! "query" = arguments' !! "query" ->
   measure_time_of arguments = measure_time_of arguments' ->
   execute_sql drv db json_dumps arguments w
   = execute_sql drv db json_dumps arguments' w) /\
  (arguments !! "query" = arguments' !! "query" ->
   arguments !! "iterations" = arguments' !! "iterations" ->
   benchmark_query drv db arguments w = benchmark_query drv db arguments' w) /\
  get_database_stats drv db arguments w = get_database_stats drv db arguments' w.
Proof.
  split; [|split].
  - intros Hquery Hmt. unfold execute_sql, getitem.
    fold (measure_time_of arguments). fold (measure_time_of arguments').
    now rewrite Hquery, Hmt.
  - intros Hquery Hiter. unfold benchmark_query, getitem, get_default.
    now rewrite Hquery, Hiter.
  - reflexivity.
Qed.

End Reports.

Lemma benchmark_query_report_witness :
  let times :=
    clock_times (steady_driver [] 0) "update t set a = 1"
      (opened_at default_db world0 ++ run_events "update t set a = 1") 50 in
  exists min_time max_time,
    fst (benchmark_query (steady_driver [] 0) default_db
           (args_of [("query", VStr "update t set a = 1"); ("iterations", VInt 70)])
           world0)
    = Ok [text_content
            (benchmark_report "update t set a = 1" 50
               (Py.fdiv (Py.sum times) (Py.float_of_int 50))
               min_time max_time times)] /\
    List.length times = 50%nat /\
    In min_time times /\ In max_time times.
Proof.
  intros times.
  destruct (benchmark_query_report (steady_driver [] 0) default_db
              (args_of [("query", VStr "update t set a = 1");
                        ("iterations", VInt 70)])
              world0 "update t set a = 1" 70
              (steady_driver_answers [] 0) eq_refl eq_refl ltac:(lia))
    as [mn [mx [Hfst [Hlen [_ [Hmn [_ [Hmx _]]]]]]]].
  exists mn, mx.
  split; [exact Hfst|]. split; [exact Hlen|]. split; [exact Hmn | exact Hmx].
Defined.

Lemma execute_sql_mutation_report_witness :
  fst (execute_sql (steady_driver [] 3) default_db count_dumps
         (args_of [("query", VStr "DELETE FROM t")]) world0)
  = Ok [text_content ("Query executed successfully." ++ nl ++ "Affected rows: 3")].
Proof.
  refine (proj1 (proj1 (execute_sql_mutation_report (steady_driver [] 3)
                          default_db count_dumps
                          (args_of [("query", VStr "DELETE FROM t")])
                          world0 "DELETE FROM t" _ _) 3 _ _ _ _));
    reflexivity.
Defined.

Lemma tools_read_their_arguments_only_witness :
  execute_sql (steady_driver [] 0) default_db count_dumps
    (args_of [("query", VStr "select 1"); ("measure_time", VInt 0);
              ("limit", VInt 10)]) world0
  = execute_sql (steady_driver [] 0) default_db count_dumps
      (args_of [("query", VStr "select 1")]) world0.
Proof.
  apply (proj1 (tools_read_their_arguments_only (steady_driver [] 0) default_db
                  count_dumps
                  (args_of [("query", VStr "select 1"); ("measure_time", VInt 0);
                            ("limit", VInt 10)])
                  (args_of [("query", VStr "select 1")]) world0));
    reflexivity.
Defined.

(** ** The shape of every answer *)

Lemma returns_ret {A} (Q : A -> Prop) (a : A) : Q a -> returns Q (ret a).
Proof. intros Hq w a' w' H. injection H as <- _. exact Hq. Qed.

Lemma returns_bind {A B} (Q : B -> Prop) (m : M A) (k : A -> M B) :
  (forall a, returns Q (k a)) -> returns Q (bind m k).
Proof.
  intros Hk w b w' H. unfold bind in H.
  destruct (m w) as [[a|e] w1]; [|discriminate H]. exact (Hk a w1 b w' H).
Qed.

Lemma returns_try_finally {A} (Q : A -> Prop) (body : M A) (fin : M unit) :
  returns Q body -> returns Q (try_finally body fin).
Proof.
  intros Hbody w a w' H. unfold try_finally in H.
  destruct (body w) as [r w1] eqn:Hrun.
  destruct (fin w1) as [[u|e] w2]; [|discriminate H].
  injection H as -> _. exact (Hbody w a w1 Hrun).
Qed.

Lemma returns_try_except {A} (Q : A -> Prop) (body : M A) (handler : Exn -> M A) :
  returns Q body -> (forall e, returns Q (handler e)) ->
  returns Q (try_except body handler).
Proof.
  intros Hbody Hhandler w a w' H. unfold try_except in H.
  destruct (body w) as [[a1|e] w1] eqn:Hrun.
  - injection H as <- _. exact (Hbody w a1 w1 Hrun).
  - exact (Hhandler e w1 a w' H).
Qed.

(** Walks to every place where a result is returned. *)
Ltac returns_steps :=
  repeat first
    [ apply returns_ret; eexists; reflexivity
    | apply returns_try_finally
    | apply returns_bind; intros
    | match goal with
      | |- returns _ (if ?b then _ else _) => destruct b
      | |- returns _ (match ?x with _ => _ end) => destruct x
      end ].

Section Answers.

Variable drv : Driver.
Variable db : TiDBConnection.
Variable json_dumps : list Row -> string.

(** X19. Whatever the name, the arguments and the answers of the database,
    [call_tool] returns exactly one block, of type [text]: a report, the
    text for an unknown tool, or the text of an error. *)
Theorem call_tool_one_text name arguments w :
  exists t,
    fst (call_tool drv db json_dumps name arguments w) = Ok [text_content t].
Proof.
  destruct (call_tool_returns drv db json_dumps name arguments w)
    as [out [w' Hrun]].
  assert (Hone : returns one_text (call_tool drv db json_dumps name arguments)).
  { unfold call_tool. apply returns_try_except.
    - unfold execute_sql, get_table_info, get_database_stats, benchmark_query.
      returns_steps.
    - intros e. apply returns_ret. eexists; reflexivity. }
  destruct (Hone w out w' Hrun) as [t ->]. exists t. now rewrite Hrun.
Qed.

End Answers.

(** ** The configuration read from the environment *)

Example init_defaults :
  TiDBConnection__init__ decimal_int ∅ = Ok default_db.
Proof. reflexivity. Qed.

(** X20. The constructor fails exactly when the text of [TIDB_PORT] (or
    the default [4000]) is refused by [int], with the exception of [int].
    When it succeeds, connections are made without TLS exactly when
    [TIDB_HOST] is not set or is set to [localhost]; a host set to the
    empty string is kept, and gets TLS. *)
Theorem init_port_and_tls int (environ : gmap string string) :
  (forall e,
      TiDBConnection__init__ int environ = Raise e
      <-> int (getenv environ "TIDB_PORT" "4000") = Raise e) /\
  (forall self,
      TiDBConnection__init__ int environ = Ok self ->
      int (getenv environ "TIDB_PORT" "4000") = Ok (port self) /\
      (ca_ssl (connect_args self) = None
       <-> environ !! "TIDB_HOST" = None
           \/ environ !! "TIDB_HOST" = Some "localhost")).
Proof.
  unfold TiDBConnection__init__, rbind. split.
  - intros e. destruct (int _); split; congruence.
  - intros self H. destruct (int _) as [p|]; [|discriminate H].
    injection H as <-. split; [reflexivity|].
    unfold connect_args, getenv. simpl.
    destruct (environ !! "TIDB_HOST") as [h|]; simpl.
    + destruct (String.eqb_spec h "localhost") as [->|Hne]; simpl.
      * split; auto.
      * split; [discriminate|]. intros [H|H]; congruence.
    + split; auto.
Qed.

Lemma init_port_and_tls_witness :
  TiDBConnection__init__ decimal_int {["TIDB_HOST" := ""]} = Ok (db_at "") /\
  ca_ssl (connect_args (db_at "")) <> None.
Proof.
  assert (Hinit : TiDBConnection__init__ decimal_int {["TIDB_HOST" := ""]}
                  = Ok (db_at "")) by reflexivity.
  split; [exact Hinit|].
  intros H.
  apply (proj2 (proj2 (init_port_and_tls decimal_int {["TIDB_HOST" := ""]})
                  (db_at "") Hinit)) in H.
  destruct H as [H|H]; vm_compute in H; discriminate H.
Defined.

(** ** How often [benchmark_query] executes the statement *)

Lemma executions_app (l1 l2 : list Event) :
  executions (l1 ++ l2) = (executions l1 + executions l2)%nat.
Proof. unfold executions. now rewrite List.filter_app, length_app. Qed.

Lemma executions_run_events query : executions (run_events query) = 1%nat.
Proof. unfold run_events. destruct (is_projection query); reflexivity. Qed.

Lemma executions_repeat n query :
  executions (repeat_events n (timed_run_events query)) = n.
Proof.
  induction n as [|n IH]; [reflexivity|].
  change (repeat_events (S n) (timed_run_events query))
    with (timed_run_events query ++ repeat_events n (timed_run_events query))%list.
  rewrite executions_app, IH. unfold timed_run_events.
  rewrite !executions_app, executions_run_events. reflexivity.
Qed.

(** X21. With a database that answers, [benchmark_query] executes the
    statement once more than the capped count says: once for the warm-up and
    once per timed run.  This holds for every integer count, also for a count
    of zero or less, where the one execution of the warm-up takes place
    although no report follows. *)
Theorem benchmark_query_executions drv db arguments w query z :
  answers_all drv ->
  arguments !! "query" = Some (VStr query) ->
  get_default arguments "iterations" (VInt 5) = VInt z ->
  exists evs,
    trace (snd (benchmark_query drv db arguments w)) = (trace w ++ evs)%list /\
    executions evs = S (Z.to_nat (Z.min z 50)).
Proof.
  intros Hdrv Hquery Hiter.
  destruct (benchmark_query_run drv db Hdrv arguments w query z Hquery Hiter)
    as [_ Htrace].
  unfold opened_at in Htrace. rewrite <- app_assoc in Htrace.
  eexists. split; [exact Htrace|].
  rewrite !executions_app, executions_run_events, executions_repeat.
  unfold executions. simpl. lia.
Qed.

Lemma benchmark_query_executions_witness :
  exists evs,
    trace (snd (benchmark_query (steady_driver [] 1) default_db
                  (args_of [("query", VStr "insert into t values (1)");
                            ("iterations", VInt 3)]) world0))
    = (trace world0 ++ evs)%list /\
    executions evs = 4%nat.
Proof.
  apply (benchmark_query_executions (steady_driver [] 1) default_db
           (args_of [("query", VStr "insert into t values (1)");
                     ("iterations", VInt 3)])
           world0 "insert into t values (1)" 3
           (steady_driver_answers [] 1) eq_refl eq_refl).
Defined.

(** ** Statements that never pass the prefix test *)

Lemma upper_cons_inv (s : string) (c : ascii) (rest : string) :
  Py.upper s = String c rest ->
  exists d s', s = String d s' /\ Py.upper_char d = c.
Proof.
  destruct s as [|d s']; simpl; [discriminate|].
  intros H. injection H as Hc _. now exists d, s'.
Qed.

(** The letters that [upper] maps to S, D and E. *)
Lemma upper_char_inv (c : ascii) :
  (Py.upper_char c = "S"%char -> c = "s"%char \/ c = "S"%char) /\
  (Py.upper_char c = "D"%char -> c = "d"%char \/ c = "D"%char) /\
  (Py.upper_char c = "E"%char -> c = "e"%char \/ c = "E"%char).
Proof.
  destruct c as [[|] [|] [|] [|] [|] [|] [|] [|]];
    vm_compute; repeat split; intros H; try discriminate H; auto.
Qed.

(** X22. A statement of ASCII characters passes the prefix test only if
    its first character after the leading white space is an s, a d or an
    e, in either case.  So an empty or blank statement, and a statement that
    opens with a comment, a parenthesis or [WITH], is reported and committed
    as a mutation.  (On ASCII characters [strip] and [upper] are the
    functions of Python; a statement with other characters is outside this
    statement.) *)
Theorem is_projection_first_character (query : string) :
  ascii_only query = true ->
  is_projection query = true ->
  exists c rest,
    Py.strip query = String c rest /\
    In c ["s"; "S"; "d"; "D"; "e"; "E"]%char.
Proof.
  intros _ Hp. apply is_projection_spec in Hp.
  destruct Hp as [kw [rest [Hkw Hup]]]. simpl in Hkw.
  destruct Hkw as [<-|[<-|[<-|[<-|[]]]]];
    match type of Hup with _ = (String ?c ?k ++ _) =>
      change (Py.upper (Py.strip query) = String c (k ++ rest)) in Hup end;
    apply upper_cons_inv in Hup; destruct Hup as [d [s' [Hs Hd]]];
    exists d, s'; (split; [exact Hs|]);
    destruct (upper_char_inv d) as [HS [HD HE]];
    first [ destruct (HS Hd) as [->| ->] | destruct (HD Hd) as [->| ->]
          | destruct (HE Hd) as [->| ->] ];
    simpl; tauto.
Qed.

Lemma is_projection_first_character_witness :
  exists c rest,
    Py.strip "  describe t" = String c rest /\
    In c ["s"; "S"; "d"; "D"; "e"; "E"]%char.
Proof.
  apply (is_projection_first_character "  describe t" eq_refl eq_refl).
Defined.

Example with_and_comment_are_mutations :
  is_projection "WITH x AS (SELECT 1) SELECT * FROM x" = false /\
  is_projection "(select 1)" = false /\
  is_projection ("-- note" ++ nl ++ "select 1") = false /\
  is_projection "   " = false /\ is_projection "" = false.
Proof. repeat split. Qed.
